(** * Refresh-token rotation in [src/controller/auth.controller.ts]

    A shallow embedding of the four request handlers of the controller
    ([handleSingUp], [handleLogin], [handleLogout], [handleRefresh]) and the
    properties of the session protocol they implement.

    The handlers are JavaScript [async] functions that talk to a Prisma
    client, to the Express response object, to [jsonwebtoken] and to
    [argon2].  They are embedded as computations in a state-and-exception
    monad over
    - the database tables the controller touches,
    - the status code of the response object, and
    - a chronological trace of the effects the handler performed (store
      mutations, minted tokens, writes to the response, log lines).

    Modelling conventions.
    - The store is reliable: a Prisma call fails only for the reasons Prisma
      gives on the data itself (unique constraint on [create], missing row on
      [delete]).
    - Requests are served one after the other; the part of an [async]
      callback that runs after its first [await] is run to completion before
      the next request is served, but after the synchronous remainder of the
      handler that started it, as the JavaScript event loop does.
    - The client receives the first terminal write to the response.  What a
      later write does is the business of the response object: it either
      raises (node's [ERR_HTTP_HEADERS_SENT]) or is merely recorded; the
      embedding covers both.
    - The token helpers, [jsonwebtoken], [argon2] and the configuration are
      parameters of the embedding; the module [TokenCodec] gives a
      deterministic codec in the shape the design document describes, for
      the worked examples. *)

From Stdlib Require Import DecimalString DecimalN.
From stdpp Require Import base option list strings gmap fin_maps.

(** ** Data *)

Definition UserId := nat.

(** A row of the [user] table, as far as the controller reads or writes it. *)
Record User := mkUser {
  user_id : UserId;
  user_name : string;
  user_email : string;
  user_password : string;      (* the argon2 hash *)
  user_emailVerified : bool;   (* truthiness of [user.emailVerified] *)
}.

(** A row of the [emailVerificationToken] table. *)
Record EmailVerificationToken := mkEVT {
  evt_token : string;
  evt_expiresAt : N;
  evt_userId : UserId;
}.

(** The tables.  [user] has a unique index on [email], [refreshToken] a
    unique index on [token]; both are maps keyed by the indexed column. *)
Record Db := mkDb {
  user : gmap string User;
  refreshToken : gmap string UserId;
  emailVerificationToken : list EmailVerificationToken;
}.

(** [http-status] constants used by the controller. *)
Module httpStatus.
Definition OK : nat := 200.
Definition CREATED : nat := 201.
Definition NO_CONTENT : nat := 204.
Definition BAD_REQUEST : nat := 400.
Definition UNAUTHORIZED : nat := 401.
Definition FORBIDDEN : nat := 403.
Definition CONFLICT : nat := 409.
Definition INTERNAL_SERVER_ERROR : nat := 500.
End httpStatus.

(** What a terminal write puts in the response body. *)
Inductive Body :=
  | StatusText                       (* [sendStatus], [send(<number>)] *)
  | JsonMessage (message : string)   (* [json({ message })] *)
  | JsonAccessToken (accessToken : string).  (* [json({ accessToken })] *)

(** Effects of a handler, in the order they happen. *)
Inductive Event :=
  | ResClearCookie (name : string)
  | ResCookie (name value : string)
  | ResSend (status : nat) (body : Body)
  | DbUserCreate (email : string)
  | DbEmailTokenCreate (token : string)
  | DbTokenCreate (token : string) (uid : UserId)
  | DbTokenDelete (token : string)
  | DbTokenDeleteMany (uid : UserId)
  | MintAccess (uid : UserId) (token : string)
  | MintRefresh (uid : UserId) (token : string)
  | SendVerifyEmail (email token : string)
  | LogWarn
  | LogError
  | UnhandledRejection.

(** JavaScript exceptions the model can raise. *)
Inductive Err :=
  | ErrUniqueConstraint      (* Prisma P2002 *)
  | ErrRecordNotFound        (* Prisma P2025 *)
  | ErrHeadersSent.          (* node: ERR_HTTP_HEADERS_SENT *)

Global Instance Body_eq_dec : EqDecision Body.
Proof. solve_decision. Defined.
Global Instance Event_eq_dec : EqDecision Event.
Proof. solve_decision. Defined.
Global Instance Err_eq_dec : EqDecision Err.
Proof. solve_decision. Defined.

(** ** Collaborators outside the controller

    The token helpers ([utils/generateTokens.util]), [jsonwebtoken]'s
    [verify], [argon2], the configuration object and the Express response
    live outside the controller.  The controller is embedded over any
    implementation of them. *)
Record Collab := mkCollab {
  (** [createAccessToken(userId)], at a clock reading *)
  createAccessToken : UserId -> N -> string;
  (** [createRefreshToken(userId)], at a clock reading *)
  createRefreshToken : UserId -> N -> string;
  (** [verify(token, REFRESH_TOKEN_SECRET, cb)] at a clock reading: [None]
      is the [err] case, [Some uid] is [payload.userId] *)
  jwt_verify : string -> N -> option UserId;
  argon2_hash : string -> string;
  (** [argon2.verify(hash, password)] *)
  argon2_verify : string -> string -> bool;
  (** [config.refresh_token_cookie_name] *)
  refresh_token_cookie_name : string;
  (** Whether the response object raises when a header is set after the
      response was sent (node's http layer does); with [false] the response
      merely records every call. *)
  throw_after_sent : bool;
}.

(** What the environment supplies to one request. *)
Record Env := mkEnv {
  now : N;                  (* [Date.now()] and the clock of the token codec *)
  uuidv4 : string;          (* the value [uuidv4()] returns *)
  new_user_id : UserId;     (* the id the database gives a created user *)
}.

(** An incoming request: the parsed body fields and the cookie jar. *)
Record Request := mkRequest {
  body_username : option string;
  body_email : option string;
  body_password : option string;
  cookies : gmap string string;
}.

(** JavaScript truthiness of a possibly missing string. *)
Definition truthy (v : option string) : option string :=
  match v with
  | Some (String c s) => Some (String c s)
  | _ => None
  end.

(** ** The handler monad *)

Record HState := mkHState {
  db : Db;
  statusCode : nat;
  trace : list Event;
}.

Inductive Completion (A : Type) :=
  | Normal (a : A)
  | Throw (e : Err).
Arguments Normal {A} a.
Arguments Throw {A} e.

Definition M (A : Type) : Type := HState -> HState * Completion A.

Definition ret {A} (a : A) : M A := fun s => (s, Normal a).

Definition bind {A B} (m : M A) (k : A -> M B) : M B :=
  fun s =>
    match m s with
    | (s', Normal a) => k a s'
    | (s', Throw e) => (s', Throw e)
    end.

Definition throw {A} (e : Err) : M A := fun s => (s, Throw e).

(** [try { body } catch (err) { handler }] *)
Definition tryCatch {A} (body : M A) (handler : Err -> M A) : M A :=
  fun s =>
    match body s with
    | (s', Normal a) => (s', Normal a)
    | (s', Throw e) => handler e s'
    end.

Notation "'let*' x ':=' m 'in' k" := (bind m (fun x => k))
  (at level 10, x name, m at level 100, k at level 200).
Notation "m ';;' k" := (bind m (fun _ => k))
  (at level 100, k at level 200, right associativity).

Definition getDb : M Db := fun s => (s, Normal (db s)).
Definition setDb (d : Db) : M unit :=
  fun s => (mkHState d (statusCode s) (trace s), Normal tt).
Definition emit (e : Event) : M unit :=
  fun s => (mkHState (db s) (statusCode s) (trace s ++ [e]), Normal tt).
Definition getStatus : M nat := fun s => (s, Normal (statusCode s)).
Definition setStatus (c : nat) : M unit :=
  fun s => (mkHState (db s) c (trace s), Normal tt).
Definition getTrace : M (list Event) := fun s => (s, Normal (trace s)).

(** ** The Express response object *)

Definition isSend (e : Event) : bool :=
  match e with ResSend _ _ => true | _ => false end.

(** [res.headersSent] *)
Definition headersSent (tr : list Event) : bool := existsb isSend tr.

(** The response the client receives: the first terminal write. *)
Fixpoint delivered (tr : list Event) : option (nat * Body) :=
  match tr with
  | [] => None
  | ResSend c b :: _ => Some (c, b)
  | _ :: tr' => delivered tr'
  end.

Section Controller.
Context (lib : Collab).

(** Setting a header on a response that was already sent. *)
Definition setHeader : M unit :=
  let* tr := getTrace in
  if throw_after_sent lib && headersSent tr then throw ErrHeadersSent
  else ret tt.

Definition res_clearCookie (name : string) : M unit :=
  setHeader ;; emit (ResClearCookie name).

Definition res_cookie (name value : string) : M unit :=
  setHeader ;; emit (ResCookie name value).

Definition res_status (c : nat) : M unit := setStatus c.

Definition res_json (b : Body) : M unit :=
  setHeader ;;
  let* c := getStatus in
  emit (ResSend c b).

Definition res_sendStatus (c : nat) : M unit :=
  setStatus c ;; setHeader ;; emit (ResSend c StatusText).

(** [res.send(<number>)]: the number is taken as the status code and the
    status text becomes the body. *)
Definition res_send_number (c : nat) : M unit :=
  setHeader ;; setStatus c ;; emit (ResSend c StatusText).

(** ** The Prisma client *)

Definition user_findUnique (email : string) : M (option User) :=
  let* d := getDb in ret (user d !! email).

Definition user_create (u : User) : M User :=
  emit (DbUserCreate (user_email u)) ;;
  let* d := getDb in
  match user d !! user_email u with
  | Some _ => throw ErrUniqueConstraint
  | None =>
      setDb (mkDb (<[user_email u := u]> (user d)) (refreshToken d)
                  (emailVerificationToken d)) ;;
      ret u
  end.

Definition emailVerificationToken_create (t : EmailVerificationToken) : M unit :=
  emit (DbEmailTokenCreate (evt_token t)) ;;
  let* d := getDb in
  setDb (mkDb (user d) (refreshToken d) (emailVerificationToken d ++ [t])).

Definition setTokens (d : Db) (m : gmap string UserId) : Db :=
  mkDb (user d) m (emailVerificationToken d).

Definition refreshToken_findUnique (token : string) : M (option UserId) :=
  let* d := getDb in ret (refreshToken d !! token).

Definition refreshToken_create (token : string) (uid : UserId) : M unit :=
  emit (DbTokenCreate token uid) ;;
  let* d := getDb in
  match refreshToken d !! token with
  | Some _ => throw ErrUniqueConstraint
  | None => setDb (setTokens d (<[token := uid]> (refreshToken d)))
  end.

Definition refreshToken_delete (token : string) : M unit :=
  emit (DbTokenDelete token) ;;
  let* d := getDb in
  match refreshToken d !! token with
  | Some _ => setDb (setTokens d (delete token (refreshToken d)))
  | None => throw ErrRecordNotFound
  end.

(** The sessions that survive [deleteMany({ where: { userId } })]. *)
Definition notOwnedBy (uid : UserId) (m : gmap string UserId) : gmap string UserId :=
  filter (fun kv => kv.2 <> uid) m.

Definition refreshToken_deleteMany (uid : UserId) : M unit :=
  emit (DbTokenDeleteMany uid) ;;
  let* d := getDb in
  setDb (setTokens d (notOwnedBy uid (refreshToken d))).

(** ** Token helpers, logger, mailer *)

Definition mintAccessToken (e : Env) (uid : UserId) : M string :=
  let t := createAccessToken lib uid (now e) in
  emit (MintAccess uid t) ;; ret t.

Definition mintRefreshToken (e : Env) (uid : UserId) : M string :=
  let t := createRefreshToken lib uid (now e) in
  emit (MintRefresh uid t) ;; ret t.

Definition sendVerifyEmail (email token : string) : M unit :=
  emit (SendVerifyEmail email token).

(** ** Asynchronous callbacks

    [verify(token, secret, async (err, payload) => { ... })] calls the
    callback at once.  The callback runs up to its first [await] and hands
    back what is left of it; an exception it raises rejects the callback's
    own promise, which nobody awaits, and does not reach the handler. *)
Definition asyncCallback (cb : M (option (M unit))) : M (option (M unit)) :=
  tryCatch cb (fun _ => emit UnhandledRejection ;; ret None).

(** Run what is left of a suspended callback. *)
Definition settle (pending : option (M unit)) : M unit :=
  match pending with
  | Some k => tryCatch k (fun _ => emit UnhandledRejection)
  | None => ret tt
  end.

(** ** The handlers *)

(** [handleSingUp] (lines 36-85). *)
Definition handleSingUp (e : Env) (req : Request) : M unit :=
  match truthy (body_username req), truthy (body_email req),
        truthy (body_password req) with
  | Some username, Some email, Some password =>
      let* checkUserEmail := user_findUnique email in
      match checkUserEmail with
      | Some _ => res_sendStatus httpStatus.CONFLICT
      | None =>
          tryCatch
            (let hashedPassword := argon2_hash lib password in
             let* newUser :=
               user_create (mkUser (new_user_id e) username email
                                   hashedPassword false) in
             let token := uuidv4 e in
             let expiresAt := (now e + 3600000)%N in
             emailVerificationToken_create
               (mkEVT token expiresAt (user_id newUser)) ;;
             sendVerifyEmail email token ;;
             res_status httpStatus.CREATED ;;
             res_json (JsonMessage "New user created"))
            (fun _ => res_sendStatus httpStatus.INTERNAL_SERVER_ERROR)
      end
  | _, _, _ =>
      res_status httpStatus.BAD_REQUEST ;;
      res_json (JsonMessage "Username, email and password are required!")
  end.

(** The cookie clean-up of [handleLogin] (lines 130-160). *)
Definition loginCookieCleanup (u : User) (jid : string) : M unit :=
  let* checkRefreshToken := refreshToken_findUnique jid in
  match checkRefreshToken with
  | Some owner =>
      if bool_decide (owner <> user_id u)
      then refreshToken_deleteMany (user_id u)
      else refreshToken_delete jid
  | None => refreshToken_deleteMany (user_id u)
  end ;;
  res_clearCookie (refresh_token_cookie_name lib).

(** [handleLogin] (lines 93-191).  The block that answers an unverified
    account (lines 116-120) has no [return]: control goes on to the password
    check.  The [console.log] of the stored row (line 174) is left out. *)
Definition handleLogin (e : Env) (req : Request) : M unit :=
  match truthy (body_email req), truthy (body_password req) with
  | Some email, Some password =>
      let* found := user_findUnique email in
      match found with
      | None => res_sendStatus httpStatus.UNAUTHORIZED
      | Some u =>
          (if user_emailVerified u then ret tt
           else
             res_send_number httpStatus.UNAUTHORIZED ;;
             res_json (JsonMessage
               "Your email is not verified! Please confirm your email!")) ;;
          tryCatch
            (if argon2_verify lib (user_password u) password then
               match truthy (cookies req !! "jid") with
               | Some jid => loginCookieCleanup u jid
               | None => ret tt
               end ;;
               let* accessToken := mintAccessToken e (user_id u) in
               let* newRefreshToken := mintRefreshToken e (user_id u) in
               refreshToken_create newRefreshToken (user_id u) ;;
               res_cookie (refresh_token_cookie_name lib) newRefreshToken ;;
               res_json (JsonAccessToken accessToken)
             else res_sendStatus httpStatus.UNAUTHORIZED)
            (fun _ => res_sendStatus httpStatus.INTERNAL_SERVER_ERROR)
      end
  | _, _ =>
      res_status httpStatus.BAD_REQUEST ;;
      res_json (JsonMessage "Email and password are required!")
  end.

(** [handleLogout] (lines 199-228). *)
Definition handleLogout (req : Request) : M unit :=
  match truthy (cookies req !! "jid") with
  | None => res_sendStatus httpStatus.NO_CONTENT
  | Some refreshToken =>
      let* foundRft := refreshToken_findUnique refreshToken in
      match foundRft with
      | None =>
          res_clearCookie (refresh_token_cookie_name lib) ;;
          res_sendStatus httpStatus.NO_CONTENT
      | Some _ =>
          refreshToken_delete refreshToken ;;
          res_clearCookie (refresh_token_cookie_name lib) ;;
          res_sendStatus httpStatus.NO_CONTENT
      end
  end.

(** The callback of the reuse branch of [handleRefresh] (lines 261-269). *)
Definition reuseCallback (payload : option UserId) : M (option (M unit)) :=
  match payload with
  | None => res_sendStatus httpStatus.FORBIDDEN ;; ret None
  | Some userId =>
      emit LogWarn ;;
      ret (Some (refreshToken_deleteMany userId))
  end.

(** The callback of the rotation branch of [handleRefresh] (lines 285-314):
    the store write is the first [await]; its failure is caught by
    [.catch], logged, and the callback goes on. *)
Definition rotateCallback (e : Env) (ownerId : UserId)
    (payload : option UserId) : M (option (M unit)) :=
  match payload with
  | Some userId =>
      if bool_decide (ownerId <> userId)
      then res_sendStatus httpStatus.FORBIDDEN ;; ret None
      else
        let* accessToken := mintAccessToken e userId in
        let* newRefreshToken := mintRefreshToken e userId in
        ret (Some (
          tryCatch (refreshToken_create newRefreshToken userId)
                   (fun _ => emit LogError) ;;
          res_cookie (refresh_token_cookie_name lib) newRefreshToken ;;
          res_json (JsonAccessToken accessToken)))
  | None => res_sendStatus httpStatus.FORBIDDEN ;; ret None
  end.

(** [handleRefresh] (lines 236-316). *)
Definition handleRefresh (e : Env) (req : Request) : M unit :=
  match truthy (cookies req !! refresh_token_cookie_name lib) with
  | None => res_sendStatus httpStatus.UNAUTHORIZED
  | Some refreshToken =>
      res_clearCookie (refresh_token_cookie_name lib) ;;
      let* foundRefreshToken := refreshToken_findUnique refreshToken in
      match foundRefreshToken with
      | None =>
          let* pending :=
            asyncCallback
              (reuseCallback (jwt_verify lib refreshToken (now e))) in
          res_sendStatus httpStatus.FORBIDDEN ;;
          settle pending
      | Some ownerId =>
          refreshToken_delete refreshToken ;;
          let* pending :=
            asyncCallback
              (rotateCallback e ownerId (jwt_verify lib refreshToken (now e))) in
          settle pending
      end
  end.

(** ** Serving requests *)

Inductive Call :=
  | SignUp
  | Login
  | Logout
  | Refresh.

Definition handler (c : Call) (e : Env) (req : Request) : M unit :=
  match c with
  | SignUp => handleSingUp e req
  | Login => handleLogin e req
  | Logout => handleLogout req
  | Refresh => handleRefresh e req
  end.

(** One request against a fresh response object. *)
Definition serve (h : M unit) (d : Db) : HState * Completion unit :=
  h (mkHState d httpStatus.OK []).

End Controller.

(** Requests served one after the other, each against the database the
    previous one left. *)
Definition Job : Type := Call * Env * Request.

Definition step (lib : Collab) (d : Db) (j : Job) : Db :=
  db (serve (handler lib j.1.1 j.1.2 j.2) d).1.

Definition run (lib : Collab) (d : Db) (js : list Job) : Db :=
  foldl (step lib) d js.

(** The refresh-token value a response puts in the cookie named [name]. *)
Definition cookieSet (name : string) (tr : list Event) : list string :=
  omap (fun ev => match ev with
                  | ResCookie n v => if bool_decide (n = name) then Some v else None
                  | _ => None
                  end) tr.

Definition isMint (ev : Event) : bool :=
  match ev with MintAccess _ _ | MintRefresh _ _ => true | _ => false end.

Definition isTokenWrite (ev : Event) : bool :=
  match ev with
  | DbTokenCreate _ _ | DbTokenDelete _ | DbTokenDeleteMany _ => true
  | _ => false
  end.

(** ** The token codec *)

Module TokenCodec.

Inductive VerificationError :=
  | ExpiredToken
  | InvalidSignature
  | Malformed.

Definition dec (n : N) : string := NilZero.string_of_uint (N.to_uint n).

Definition undec (s : string) : option N :=
  match NilZero.uint_of_string s with
  | Some d => Some (N.of_uint d)
  | None => None
  end.

(** The character [.] that separates the parts of a token. *)
Definition dot : Ascii.ascii := Ascii.Ascii false true true true false true false false.

(** The dot-separated fields of a token string. *)
Fixpoint fields (s : string) : list string :=
  match s with
  | EmptyString => [EmptyString]
  | String c s' =>
      if Ascii.eqb c dot then EmptyString :: fields s'
      else match fields s' with
           | f :: fs => String c f :: fs
           | [] => [String c EmptyString]
           end
  end.

(** A string without the separator. *)
Fixpoint dotless (s : string) : bool :=
  match s with
  | EmptyString => true
  | String c s' => negb (Ascii.eqb c dot) && dotless s'
  end.

(** Modelled from the spec: the token helpers of
    [utils/generateTokens.util] and [jsonwebtoken] are not part of the
    controller.  The spec (4.1) gives the codec as a stateless, pure function
    of a secret and a payload; a token is a signed claim that carries only
    the subject id and an expiry.  The signature is stood for by the secret
    itself. *)
Definition sign (secret : string) (subject : UserId) (expiry : N) : string :=
  secret +:+ "." +:+ dec (N.of_nat subject) +:+ "." +:+ dec expiry.

Definition claims (token : string) : option (string * UserId * N) :=
  match fields token with
  | [k; u; x] =>
      match undec u, undec x with
      | Some uid, Some expiry => Some (k, N.to_nat uid, expiry)
      | _, _ => None
      end
  | _ => None
  end.

(** Modelled from the spec: [verify(token, secret)] of 4.1, with its three
    failures. *)
Definition verify (token secret : string) (clock : N)
    : VerificationError + UserId :=
  match claims token with
  | None => inl Malformed
  | Some (k, uid, expiry) =>
      if bool_decide (k = secret) then
        if (clock <=? expiry)%N then inr uid else inl ExpiredToken
      else inl InvalidSignature
  end.

Definition accessSecret : string := "access".
Definition refreshSecret : string := "refresh".
(** validity windows, in clock ticks: minutes and days *)
Definition accessTtl : N := 900.
Definition refreshTtl : N := 604800.

(** Modelled from the spec: [issueAccessToken] and [issueRefreshToken] of
    4.1, which are [createAccessToken] and [createRefreshToken] of
    [utils/generateTokens.util], as a pure function of the secret and the
    payload.  The entropy of a token is not modelled: the same user at the
    same clock reading gets the same string.  That a minted token is new to
    the store, as section 3 has it, is the separate assumption
    [neverReinserted]; nothing that is proved about a minted token being new
    rests on this codec. *)
Definition issueAccessToken (uid : UserId) (clock : N) : string :=
  sign accessSecret uid (clock + accessTtl).

Definition issueRefreshToken (uid : UserId) (clock : N) : string :=
  sign refreshSecret uid (clock + refreshTtl).

Definition verifyRefresh (token : string) (clock : N) : option UserId :=
  match verify token refreshSecret clock with
  | inr uid => Some uid
  | inl _ => None
  end.

(** The controller's collaborators with this codec; the password
    hash is the identity and the cookie is named as the handlers that read
    [cookies.jid] expect. *)
Definition collab (strict : bool) : Collab :=
  mkCollab issueAccessToken issueRefreshToken verifyRefresh
           (fun pw => pw) String.eqb "jid" strict.

End TokenCodec.

(** ** A small program logic for store invariants

    [keeps P m Q]: run from a database that satisfies [P], the computation
    [m] leaves a database that satisfies [P], whether it returns or throws,
    and a returned value satisfies [Q]. *)
Definition keeps (P : Db -> Prop) {A} (m : M A) (Q : A -> Prop) : Prop :=
  forall s, P (db s) ->
    P (db (m s).1) /\
    match (m s).2 with
    | Normal a => Q a
    | Throw _ => True
    end.

(** What is left of a suspended callback keeps the invariant as well. *)
Definition pendingKeeps (P : Db -> Prop) (pending : option (M unit)) : Prop :=
  forall k, pending = Some k -> keeps P k (fun _ => True).

(** The token [t] is in no session of the store. *)
Definition absent (t : string) (d : Db) : Prop := refreshToken d !! t = None.

(** ** Invariants of the tables

    The three writes a handler can make to the refresh-token table when it
    is served at the clock reading of [e]: delete one session, delete the
    sessions of one user, insert the token minted for a user. *)
Definition closedUnderTokenWrites (lib : Collab) (e : Env) (P : Db -> Prop)
    : Prop :=
  (forall d tok, P d -> P (setTokens d (delete tok (refreshToken d)))) /\
  (forall d uid, P d -> P (setTokens d (notOwnedBy uid (refreshToken d)))) /\
  (forall d uid, P d ->
     refreshToken d !! createRefreshToken lib uid (now e) = None ->
     P (setTokens d (<[createRefreshToken lib uid (now e) := uid]>
                       (refreshToken d)))).

(** The two writes to the other tables: a new user, a new verification
    token. *)
Definition closedUnderUserWrites (P : Db -> Prop) : Prop :=
  (forall d u, P d ->
     P (mkDb (<[user_email u := u]> (user d)) (refreshToken d)
             (emailVerificationToken d))) /\
  (forall d v, P d ->
     P (mkDb (user d) (refreshToken d) (emailVerificationToken d ++ [v]))).

(** The token [t] is what the codec mints for [o] at the clock reading of
    one of the requests [js]. *)
Definition mintedIn (lib : Collab) (js : list Job) (t : string) (o : UserId)
    : Prop :=
  exists j, j ∈ js /\ t = createRefreshToken lib o (now j.1.2).

(** Every session of [d] was a session of [d0], with the same owner, or was
    minted for its owner while [js] were served. *)
Definition provenance (lib : Collab) (d0 : Db) (js : list Job) (d : Db)
    : Prop :=
  forall t o, refreshToken d !! t = Some o ->
    refreshToken d0 !! t = Some o \/ mintedIn lib js t o.

(** Every session is owned by the subject its token names, whenever the
    token verifies. *)
Definition subjectOwned (lib : Collab) (d : Db) : Prop :=
  forall t o clock uid,
    refreshToken d !! t = Some o -> jwt_verify lib t clock = Some uid ->
    uid = o.

(** The terminal writes to the response, in order. *)
Definition sends (tr : list Event) : list Event := List.filter isSend tr.


(** ** Fixtures for the worked examples *)

Module Scenario.
Import TokenCodec.

Definition alice : User := mkUser 1 "alice" "alice@example.org" "pw-alice" true.
Definition bob : User := mkUser 2 "bob" "bob@example.org" "pw-bob" true.
(** an account whose email was never confirmed *)
Definition carol : User := mkUser 3 "carol" "carol@example.org" "pw-carol" false.

Definition users : gmap string User :=
  {[ user_email alice := alice; user_email bob := bob;
     user_email carol := carol ]}.

Definition database (sessions : gmap string UserId) : Db :=
  mkDb users sessions [].

Definition at_clock (clock : N) : Env := mkEnv clock "4f9c" 4.

Definition jar (cookie : option string) : gmap string string :=
  match cookie with
  | Some v => {[ "jid" := v ]}
  | None => ∅
  end.

(** a request that carries only the refresh-token cookie *)
Definition withCookie (t : string) : Request :=
  mkRequest None None None (jar (Some t)).

(** a login request of [u] with the right password *)
Definition credentials (u : User) (cookie : option string) : Request :=
  mkRequest None (Some (user_email u)) (Some (user_password u)) (jar cookie).

(** a signup request *)
Definition registration (username : option string) (u : User) : Request :=
  mkRequest username (Some (user_email u)) (Some (user_password u)) ∅.

End Scenario.

(** ** Proof automation *)

Ltac unfold_prims :=
  unfold res_clearCookie, res_cookie, res_status, res_json, res_sendStatus,
    res_send_number, setHeader, user_findUnique, user_create,
    emailVerificationToken_create, refreshToken_findUnique,
    refreshToken_create, refreshToken_delete, refreshToken_deleteMany,
    mintAccessToken, mintRefreshToken, sendVerifyEmail, asyncCallback, settle,
    tryCatch, bind, ret, throw, getDb, setDb, emit, getStatus, setStatus,
    getTrace, setTokens in *.

(** Symbolic execution of a handler on a state. *)
Ltac exec :=
  unfold_prims; cbn in *;
  repeat (rewrite ?andb_false_r, ?andb_true_r in *; cbn in * ).

(** * Properties *)

(** ** Rules of the program logic *)

Section Logic.
Context (P : Db -> Prop).

Lemma keeps_ret {A} (a : A) (Q : A -> Prop) : Q a -> keeps P (ret a) Q.
Proof. intros Ha s Hs. by split. Qed.

Lemma keeps_throw {A} (e : Err) (Q : A -> Prop) : keeps P (throw e) Q.
Proof. intros s Hs. by split. Qed.

Lemma keeps_bind {A B} (m : M A) (k : A -> M B) Q R :
  keeps P m Q -> (forall a, Q a -> keeps P (k a) R) -> keeps P (bind m k) R.
Proof.
  intros Hm Hk s Hs. unfold bind.
  destruct (Hm s Hs) as [H1 H2]. destruct (m s) as [s' [a|e]]; cbn in *.
  - by apply Hk.
  - by split.
Qed.

Lemma keeps_tryCatch {A} (body : M A) (handler : Err -> M A) Q :
  keeps P body Q -> (forall e, keeps P (handler e) Q) ->
  keeps P (tryCatch body handler) Q.
Proof.
  intros Hb Hh s Hs. unfold tryCatch.
  destruct (Hb s Hs) as [H1 H2]. destruct (body s) as [s' [a|e]]; cbn in *.
  - by split.
  - by apply Hh.
Qed.

Lemma keeps_weaken {A} (m : M A) (Q Q' : A -> Prop) :
  keeps P m Q -> (forall a, Q a -> Q' a) -> keeps P m Q'.
Proof.
  intros Hm HQ s Hs. destruct (Hm s Hs) as [H1 H2]. split; [done|].
  destruct (m s).2; auto.
Qed.

(** Computations that leave the database alone. *)
Lemma keeps_emit ev : keeps P (emit ev) (fun _ => True).
Proof. intros s Hs. by split. Qed.

Lemma keeps_setStatus c : keeps P (setStatus c) (fun _ => True).
Proof. intros s Hs. by split. Qed.

Lemma keeps_getStatus : keeps P getStatus (fun _ => True).
Proof. intros s Hs. by split. Qed.

Lemma keeps_getTrace : keeps P getTrace (fun _ => True).
Proof. intros s Hs. by split. Qed.

Lemma keeps_getDb : keeps P getDb P.
Proof. intros s Hs. by split. Qed.

Lemma keeps_setDb d : P d -> keeps P (setDb d) (fun _ => True).
Proof. intros Hd s Hs. by split. Qed.

Lemma keeps_settle pending :
  pendingKeeps P pending -> keeps P (settle pending) (fun _ => True).
Proof.
  intros Hp. destruct pending as [k|]; cbn.
  - apply keeps_tryCatch; [by apply Hp|]. intros _. apply keeps_emit.
  - by apply keeps_ret.
Qed.

Lemma keeps_asyncCallback cb :
  keeps P cb (pendingKeeps P) -> keeps P (asyncCallback cb) (pendingKeeps P).
Proof.
  intros Hcb. apply keeps_tryCatch; [done|]. intros _.
  eapply keeps_bind; [apply keeps_emit|]. intros _ _.
  apply keeps_ret. by intros k [=].
Qed.

End Logic.

(** ** Every handler keeps a token out of the store unless it mints it *)

Section Absent.
Context (lib : Collab) (t : string).

Lemma keeps_response {A} (m : M A) :
  (forall s, db (m s).1 = db s) -> keeps (absent t) m (fun _ => True).
Proof. intros Hm s Hs. rewrite Hm. split; [done|]. by destruct (m s).2. Qed.

Lemma keeps_res_sendStatus c :
  keeps (absent t) (res_sendStatus lib c) (fun _ => True).
Proof. apply keeps_response. intros s. exec. by destruct (_ && _). Qed.

Lemma keeps_res_send_number c :
  keeps (absent t) (res_send_number lib c) (fun _ => True).
Proof. apply keeps_response. intros s. exec. by destruct (_ && _). Qed.

Lemma keeps_res_json b : keeps (absent t) (res_json lib b) (fun _ => True).
Proof. apply keeps_response. intros s. exec. by destruct (_ && _). Qed.

Lemma keeps_res_status c : keeps (absent t) (res_status c) (fun _ => True).
Proof. apply keeps_setStatus. Qed.

Lemma keeps_res_cookie n v :
  keeps (absent t) (res_cookie lib n v) (fun _ => True).
Proof. apply keeps_response. intros s. exec. by destruct (_ && _). Qed.

Lemma keeps_res_clearCookie n :
  keeps (absent t) (res_clearCookie lib n) (fun _ => True).
Proof. apply keeps_response. intros s. exec. by destruct (_ && _). Qed.

Lemma keeps_user_findUnique email :
  keeps (absent t) (user_findUnique email) (fun _ => True).
Proof. by apply keeps_response. Qed.

Lemma keeps_user_create u :
  keeps (absent t) (user_create u) (fun _ => True).
Proof.
  intros s Hs. exec. destruct (user (db s) !! user_email u); by split.
Qed.

Lemma keeps_emailVerificationToken_create v :
  keeps (absent t) (emailVerificationToken_create v) (fun _ => True).
Proof. intros s Hs. by split. Qed.

Lemma keeps_sendVerifyEmail email tok :
  keeps (absent t) (sendVerifyEmail email tok) (fun _ => True).
Proof. apply keeps_emit. Qed.

Lemma keeps_refreshToken_findUnique tok :
  keeps (absent t) (refreshToken_findUnique tok) (fun _ => True).
Proof. by apply keeps_response. Qed.

Lemma keeps_refreshToken_create tok uid :
  tok <> t -> keeps (absent t) (refreshToken_create tok uid) (fun _ => True).
Proof.
  intros Hne s Hs. exec. destruct (refreshToken (db s) !! tok); [by split|].
  split; [|done]. unfold absent. cbn. by rewrite lookup_insert_ne.
Qed.

Lemma keeps_refreshToken_delete tok :
  keeps (absent t) (refreshToken_delete tok) (fun _ => True).
Proof.
  intros s Hs. exec. destruct (refreshToken (db s) !! tok); [|by split].
  split; [|done]. unfold absent. cbn. apply lookup_delete_None. by right.
Qed.

Lemma keeps_refreshToken_deleteMany uid :
  keeps (absent t) (refreshToken_deleteMany uid) (fun _ => True).
Proof.
  intros s Hs. split; [|done]. unfold absent. cbn.
  apply map_lookup_filter_None. by left.
Qed.

Lemma keeps_mintAccessToken e uid :
  keeps (absent t) (mintAccessToken lib e uid) (fun _ => True).
Proof. by apply keeps_response. Qed.

Lemma keeps_mintRefreshToken e uid :
  keeps (absent t) (mintRefreshToken lib e uid)
        (fun tok => tok = createRefreshToken lib uid (now e)).
Proof. intros s Hs. by split. Qed.

End Absent.

Create HintDb keeps.
#[export] Hint Resolve keeps_res_sendStatus keeps_res_send_number keeps_res_json
  keeps_res_status keeps_res_cookie keeps_res_clearCookie
  keeps_user_findUnique keeps_user_create keeps_emailVerificationToken_create
  keeps_sendVerifyEmail keeps_refreshToken_findUnique
  keeps_refreshToken_delete keeps_refreshToken_deleteMany
  keeps_mintAccessToken keeps_mintRefreshToken : keeps.

(** One step of the rules, for a goal [keeps P m Q]. *)
Ltac keeps_step :=
  lazymatch goal with
  | |- keeps _ (bind _ _) _ => eapply keeps_bind; [|intros ? ?]
  | |- keeps _ (tryCatch _ _) _ => eapply keeps_tryCatch; [|intros ?]
  | |- keeps _ (ret _) _ =>
      first [ by apply keeps_ret
            | by apply (keeps_ret _ _ (fun _ => True)) ]
  | |- keeps _ (throw _) _ => apply keeps_throw
  | |- keeps _ (emit _) _ => apply keeps_emit
  | |- keeps _ (setStatus _) _ => apply keeps_setStatus
  | |- keeps _ getStatus _ => apply keeps_getStatus
  | |- keeps _ getTrace _ => apply keeps_getTrace
  | |- keeps _ (settle _) _ => by apply keeps_settle
  | |- keeps _ (refreshToken_create _ _) _ =>
      cbn beta in *; subst; apply keeps_refreshToken_create; solve [eauto]
  | |- keeps _ (if ?b then _ else _) _ => destruct b
  | |- keeps _ (match ?x with _ => _ end) _ => destruct x
  end.

Ltac keeps_auto :=
  repeat first [ solve [eauto with keeps] | keeps_step ].

Section AbsentHandlers.
Context (lib : Collab) (t : string) (e : Env).
Hypothesis never_minted : forall uid, createRefreshToken lib uid (now e) <> t.

Lemma keeps_reuseCallback payload :
  keeps (absent t) (reuseCallback lib payload) (pendingKeeps (absent t)).
Proof.
  destruct payload as [uid|]; cbn.
  - eapply keeps_bind; [apply keeps_emit|]. intros _ _.
    apply keeps_ret. intros k [= <-]. apply keeps_refreshToken_deleteMany.
  - eapply keeps_bind; [apply keeps_res_sendStatus|]. intros _ _.
    apply keeps_ret. by intros k [=].
Qed.

Lemma keeps_rotateCallback owner payload :
  keeps (absent t) (rotateCallback lib e owner payload)
        (pendingKeeps (absent t)).
Proof.
  destruct payload as [uid|]; cbn.
  2: { eapply keeps_bind; [apply keeps_res_sendStatus|]. intros _ _.
       apply keeps_ret. by intros k [=]. }
  case_bool_decide.
  { eapply keeps_bind; [apply keeps_res_sendStatus|]. intros _ _.
    apply keeps_ret. by intros k [=]. }
  eapply keeps_bind; [apply keeps_mintAccessToken|]. intros a _.
  eapply keeps_bind; [apply keeps_mintRefreshToken|]. intros r ->.
  apply keeps_ret. intros k [= <-].
  keeps_auto.
Qed.

Lemma keeps_handleSingUp req :
  keeps (absent t) (handleSingUp lib e req) (fun _ => True).
Proof. unfold handleSingUp. keeps_auto. Qed.

Lemma keeps_handleLogin req :
  keeps (absent t) (handleLogin lib e req) (fun _ => True).
Proof.
  unfold handleLogin, loginCookieCleanup. keeps_auto.
Qed.

Lemma keeps_handleLogout req :
  keeps (absent t) (handleLogout lib req) (fun _ => True).
Proof. unfold handleLogout. keeps_auto. Qed.

Lemma keeps_handleRefresh req :
  keeps (absent t) (handleRefresh lib e req) (fun _ => True).
Proof.
  unfold handleRefresh. keeps_auto.
  all: try (apply keeps_asyncCallback;
            auto using keeps_rotateCallback, keeps_reuseCallback).
  all: by apply keeps_settle.
Qed.

Lemma handler_keeps_absent c req d :
  absent t d -> absent t (db (serve (handler lib c e req) d).1).
Proof.
  intros Hd.
  assert (keeps (absent t) (handler lib c e req) (fun _ => True)) as Hk.
  { destruct c; cbn; auto using keeps_handleSingUp, keeps_handleLogin,
      keeps_handleLogout, keeps_handleRefresh. }
  by apply Hk.
Qed.

End AbsentHandlers.

Lemma run_keeps_absent lib t (js : list Job) d :
  absent t d ->
  (forall j uid, j ∈ js -> createRefreshToken lib uid (now j.1.2) <> t) ->
  absent t (run lib d js).
Proof.
  revert d. induction js as [|j js IH]; intros d Hd Hmint; [done|].
  cbn. apply IH.
  - apply handler_keeps_absent; [|done]. intros uid. apply Hmint. by left.
  - intros j' uid Hj'. apply Hmint. by right.
Qed.

(** ** The token codec of the spec *)

Module TokenCodecFacts.
Import TokenCodec.

Lemma fields_dotless s : dotless s = true -> fields s = [s].
Proof.
  induction s as [|c s IH]; cbn [fields dotless]; [done|].
  intros [Hc Hs]%andb_prop. apply negb_true_iff in Hc. rewrite Hc.
  by rewrite IH.
Qed.

Lemma fields_app a b :
  dotless a = true -> fields (a +:+ String dot b) = a :: fields b.
Proof.
  induction a as [|c a IH]; cbn [dotless]; [done|].
  intros [Hc Ha]%andb_prop. apply negb_true_iff in Hc.
  change (String c a +:+ ?x) with (String c (a +:+ x)).
  cbn [fields]. by rewrite Hc, IH.
Qed.

Lemma dotless_digits d : dotless (NilEmpty.string_of_uint d) = true.
Proof. induction d; cbn; auto. Qed.

Lemma dotless_dec n : dotless (dec n) = true.
Proof.
  unfold dec, NilZero.string_of_uint.
  destruct (N.to_uint n); try done; apply (dotless_digits (_ _)).
Qed.

Lemma undec_dec n : undec (dec n) = Some n.
Proof.
  unfold undec, dec. rewrite NilZero.usu.
  - by rewrite DecimalN.Unsigned.of_to.
  - destruct n as [|p]; [done|]. cbn. unfold Pos.to_uint.
    intros H. pose proof (DecimalPos.Unsigned.to_uint_nonnil p). 
    unfold Pos.to_uint in *. congruence.
Qed.

Lemma dot_append x : "." +:+ x = String dot x.
Proof. reflexivity. Qed.

(** Decoding undoes signing. *)
Lemma claims_sign secret uid expiry :
  dotless secret = true ->
  claims (sign secret uid expiry) = Some (secret, uid, expiry).
Proof.
  intros Hs. unfold claims, sign. rewrite !dot_append.
  rewrite fields_app by done.
  rewrite fields_app by apply dotless_dec.
  rewrite fields_dotless by apply dotless_dec.
  rewrite !undec_dec. by rewrite Nat2N.id.
Qed.

Lemma sign_inj secret uid uid' expiry expiry' :
  dotless secret = true ->
  sign secret uid expiry = sign secret uid' expiry' ->
  uid = uid' /\ expiry = expiry'.
Proof.
  intros Hs Heq.
  pose proof (claims_sign secret uid expiry Hs) as H1.
  rewrite Heq, claims_sign in H1 by done. by simplify_eq.
Qed.

(** A refresh token verifies until it expires, and names its subject. *)
Lemma verifyRefresh_issue uid t0 clock :
  (clock <= t0 + refreshTtl)%N ->
  verifyRefresh (issueRefreshToken uid t0) clock = Some uid.
Proof.
  intros Hle. unfold verifyRefresh, verify, issueRefreshToken.
  rewrite claims_sign by done. rewrite bool_decide_eq_true_2 by done.
  by apply N.leb_le in Hle as ->.
Qed.

Lemma verifyRefresh_expired uid t0 clock :
  (t0 + refreshTtl < clock)%N ->
  verifyRefresh (issueRefreshToken uid t0) clock = None.
Proof.
  intros Hlt. unfold verifyRefresh, verify, issueRefreshToken.
  rewrite claims_sign by done. rewrite bool_decide_eq_true_2 by done.
  by apply N.leb_gt in Hlt as ->.
Qed.

(** What verification recovers does not depend on the clock. *)
Lemma verifyRefresh_subject token clock uid :
  verifyRefresh token clock = Some uid ->
  exists expiry, claims token = Some (refreshSecret, uid, expiry).
Proof.
  unfold verifyRefresh, verify.
  destruct (claims token) as [[[k u] x]|]; [|done].
  case_bool_decide; [|done]. destruct (_ <=? _)%N; [|done].
  intros [= ->]. subst. eauto.
Qed.

(** An access token is never accepted as a refresh token. *)
Lemma verifyRefresh_access uid t0 clock :
  verifyRefresh (issueAccessToken uid t0) clock = None.
Proof.
  unfold verifyRefresh, verify, issueAccessToken.
  by rewrite claims_sign.
Qed.

Lemma issueRefreshToken_inj uid uid' t0 t1 :
  issueRefreshToken uid t0 = issueRefreshToken uid' t1 ->
  uid = uid' /\ t0 = t1.
Proof.
  intros [-> H]%sign_inj; [|done]. split; [done|].
  lia.
Qed.

End TokenCodecFacts.

(** ** Facts about the store operations *)

Lemma Db_eta (d : Db) :
  mkDb (user d) (refreshToken d) (emailVerificationToken d) = d.
Proof. by destruct d. Qed.

Lemma notOwnedBy_lookup uid (m : gmap string UserId) t o :
  notOwnedBy uid m !! t = Some o <-> m !! t = Some o /\ o <> uid.
Proof. unfold notOwnedBy. by rewrite map_lookup_filter_Some. Qed.

(** After [deleteMany] no session of the owner is left. *)
Lemma notOwnedBy_wiped uid (m : gmap string UserId) t :
  notOwnedBy uid m !! t <> Some uid.
Proof. intros [_ H]%notOwnedBy_lookup. done. Qed.

(** Owner isolation: the sessions of every other user survive. *)
Lemma notOwnedBy_other uid (m : gmap string UserId) t o :
  o <> uid -> m !! t = Some o -> notOwnedBy uid m !! t = Some o.
Proof. intros. by apply notOwnedBy_lookup. Qed.

(** Membership in a list that is written out. *)
Ltac in_list :=
  cbn; repeat first [ by apply list_elem_of_here | apply list_elem_of_further ].
Ltac not_in_list :=
  repeat (apply not_elem_of_cons; split; [done|]); apply not_elem_of_nil.

(** ** [handleRefresh] *)

Section Refresh.
Context (lib : Collab).

Local Abbreviation name := (refresh_token_cookie_name lib).

(** The reuse branch: the presented token is not in the store. *)
Lemma handleRefresh_not_found e req d t :
  truthy (cookies req !! name) = Some t ->
  refreshToken d !! t = None ->
  let out := serve (handleRefresh lib e req) d in
  delivered (trace out.1) = Some (httpStatus.FORBIDDEN, StatusText) /\
  List.filter isMint (trace out.1) = [] /\
  user (db out.1) = user d /\
  emailVerificationToken (db out.1) = emailVerificationToken d /\
  refreshToken (db out.1) =
    match jwt_verify lib t (now e) with
    | Some uid => notOwnedBy uid (refreshToken d)
    | None => refreshToken d
    end /\
  List.filter isTokenWrite (trace out.1) =
    match jwt_verify lib t (now e) with
    | Some uid => [DbTokenDeleteMany uid]
    | None => []
    end /\
  out.2 =
    match jwt_verify lib t (now e) with
    | Some _ => Normal tt
    | None => if throw_after_sent lib then Throw ErrHeadersSent else Normal tt
    end.
Proof.
  intros Ht Hd. unfold serve, handleRefresh, reuseCallback. rewrite Ht.
  exec. rewrite Hd. exec.
  destruct (jwt_verify lib t (now e)) as [uid|]; exec; [done|].
  by destruct (throw_after_sent lib); exec.
Qed.

(** The rotation branch, whatever verification says. *)
Lemma handleRefresh_found e req d t owner :
  truthy (cookies req !! name) = Some t ->
  refreshToken d !! t = Some owner ->
  let out := serve (handleRefresh lib e req) d in
  let R := createRefreshToken lib owner (now e) in
  out.2 = Normal tt /\
  if bool_decide (jwt_verify lib t (now e) = Some owner) then
    trace out.1 =
      [ResClearCookie name; DbTokenDelete t;
       MintAccess owner (createAccessToken lib owner (now e));
       MintRefresh owner R; DbTokenCreate R owner] ++
      match delete t (refreshToken d) !! R with
      | Some _ => [LogError]
      | None => []
      end ++
      [ResCookie name R;
       ResSend httpStatus.OK
               (JsonAccessToken (createAccessToken lib owner (now e)))] /\
    refreshToken (db out.1) =
      match delete t (refreshToken d) !! R with
      | Some _ => delete t (refreshToken d)
      | None => <[R := owner]> (delete t (refreshToken d))
      end
  else
    trace out.1 =
      [ResClearCookie name; DbTokenDelete t;
       ResSend httpStatus.FORBIDDEN StatusText] /\
    refreshToken (db out.1) = delete t (refreshToken d).
Proof.
  intros Ht Hd. unfold serve, handleRefresh, rotateCallback. rewrite Ht.
  exec. rewrite Hd. exec. rewrite Hd. exec.
  destruct (jwt_verify lib t (now e)) as [uid|]; exec;
    [|by rewrite bool_decide_eq_false_2].
  destruct (decide (owner = uid)) as [<-|Hne].
  - rewrite bool_decide_eq_false_2 by naive_solver.
    rewrite bool_decide_eq_true_2 by done. exec.
    by destruct (delete t (refreshToken d) !! _); exec.
  - rewrite bool_decide_eq_true_2 by done.
    rewrite bool_decide_eq_false_2 by naive_solver. by exec.
Qed.

(** A refresh that answers with an access token went through the rotation
    branch. *)
Lemma handleRefresh_success_inv e req d t a :
  truthy (cookies req !! name) = Some t ->
  let out := serve (handleRefresh lib e req) d in
  delivered (trace out.1) = Some (httpStatus.OK, JsonAccessToken a) ->
  exists owner,
    let R := createRefreshToken lib owner (now e) in
    refreshToken d !! t = Some owner /\
    jwt_verify lib t (now e) = Some owner /\
    a = createAccessToken lib owner (now e) /\
    cookieSet name (trace out.1) = [R] /\
    refreshToken (db out.1) =
      match delete t (refreshToken d) !! R with
      | Some _ => delete t (refreshToken d)
      | None => <[R := owner]> (delete t (refreshToken d))
      end.
Proof.
  intros Ht out. destruct (refreshToken d !! t) as [owner|] eqn:Hd.
  - destruct (handleRefresh_found e req d t owner Ht Hd) as [_ H].
    fold out in H. case_bool_decide as Hv.
    + destruct H as [Htr Hdb]. rewrite Htr. intros Hdel. exists owner.
      split_and!; try done.
      * destruct (delete t (refreshToken d) !! _); cbn in Hdel; congruence.
      * destruct (delete t (refreshToken d) !! _); cbn;
          by rewrite bool_decide_eq_true_2.
    + destruct H as [Htr _]. rewrite Htr. by intros [=].
  - destruct (handleRefresh_not_found e req d t Ht Hd) as [H _].
    fold out in H. rewrite H. by intros [=].
Qed.

(** C5. A refresh call whose presented token is found in the store deletes
    that session before anything else is written or minted, and when the
    token does not verify for the session's owner the call is answered
    [Forbidden], with the presented session consumed and nothing minted. *)
Theorem handleRefresh_consumes_before_minting
    (e : Env) (req : Request) (d : Db) (t : string) (owner : UserId) :
  truthy (cookies req !! name) = Some t ->
  refreshToken d !! t = Some owner ->
  let out := serve (handleRefresh lib e req) d in
  (exists rest,
     trace out.1 = ResClearCookie name :: DbTokenDelete t :: rest /\
     DbTokenDelete t ∉ rest) /\
  (jwt_verify lib t (now e) <> Some owner ->
     out.2 = Normal tt /\
     delivered (trace out.1) = Some (httpStatus.FORBIDDEN, StatusText) /\
     List.filter isMint (trace out.1) = [] /\
     refreshToken (db out.1) = delete t (refreshToken d)).
Proof.
  intros Ht Hd out.
  destruct (handleRefresh_found e req d t owner Ht Hd) as [Hc H].
  fold out in Hc, H. case_bool_decide as Hv.
  - destruct H as [Htr Hdb]. split; [|done]. rewrite Htr.
    eexists. split; [reflexivity|].
    destruct (delete t (refreshToken d) !! _); cbn; not_in_list.
  - destruct H as [Htr Hdb]. rewrite Htr. split.
    + eexists. split; [reflexivity|]. not_in_list.
    + done.
Qed.

(** C7. A refresh call whose token is neither in the store nor verifiable
    is answered [Forbidden], exactly as a verified replay is, and performs
    no store write.  (Line 271 then writes the answer a second time; a
    response object that raises on that ends the handler with an exception,
    after the answer.) *)
Theorem handleRefresh_unverifiable_no_wipe
    (e : Env) (req : Request) (d : Db) (t : string)
    (e2 : Env) (req2 : Request) (d2 : Db) (t2 : string) (uid : UserId) :
  truthy (cookies req !! name) = Some t ->
  refreshToken d !! t = None ->
  jwt_verify lib t (now e) = None ->
  truthy (cookies req2 !! name) = Some t2 ->
  refreshToken d2 !! t2 = None ->
  jwt_verify lib t2 (now e2) = Some uid ->
  let out := serve (handleRefresh lib e req) d in
  let replay := serve (handleRefresh lib e2 req2) d2 in
  delivered (trace out.1) = Some (httpStatus.FORBIDDEN, StatusText) /\
  db out.1 = d /\
  List.filter isTokenWrite (trace out.1) = [] /\
  delivered (trace replay.1) = delivered (trace out.1) /\
  out.2 = if throw_after_sent lib then Throw ErrHeadersSent else Normal tt.
Proof.
  intros Ht Hd Hv Ht2 Hd2 Hv2 out replay.
  destruct (handleRefresh_not_found e req d t Ht Hd)
    as (H1 & _ & H2 & H3 & H4 & H5 & H7).
  destruct (handleRefresh_not_found e2 req2 d2 t2 Ht2 Hd2) as (H6 & _).
  fold out in H1, H2, H3, H4, H5, H7. fold replay in H6.
  rewrite Hv in H4, H5, H7. split_and!; try done; [|congruence].
  rewrite <- (Db_eta d), <- (Db_eta (db out.1)). congruence.
Qed.

(** C1 (the behaviour of the code).  When the insert of the rotated session
    is rejected, the callback logs the error and goes on: the call is
    answered 200 with the new access token and the cookie carries the
    refresh token whose insert was rejected; the store is the old one without
    the presented session. *)
Theorem handleRefresh_insert_failure_still_answers
    (e : Env) (req : Request) (d : Db) (t : string) (owner other : UserId) :
  truthy (cookies req !! name) = Some t ->
  refreshToken d !! t = Some owner ->
  jwt_verify lib t (now e) = Some owner ->
  delete t (refreshToken d) !! createRefreshToken lib owner (now e)
    = Some other ->
  let out := serve (handleRefresh lib e req) d in
  out.2 = Normal tt /\
  delivered (trace out.1) =
    Some (httpStatus.OK,
          JsonAccessToken (createAccessToken lib owner (now e))) /\
  cookieSet name (trace out.1) = [createRefreshToken lib owner (now e)] /\
  LogError ∈ trace out.1 /\
  refreshToken (db out.1) = delete t (refreshToken d).
Proof.
  intros Ht Hd Hv Hdup out.
  destruct (handleRefresh_found e req d t owner Ht Hd) as [Hc H].
  fold out in Hc, H. rewrite bool_decide_eq_true_2 in H by done.
  rewrite Hdup in H. destruct H as [Htr Hdb]. rewrite Htr.
  split_and!; try done.
  - cbn. by rewrite bool_decide_eq_true_2.
  - in_list.
Qed.

End Refresh.

(** ** [handleLogin] *)

Section Login.
Context (lib : Collab).

Local Abbreviation name := (refresh_token_cookie_name lib).

(** A login that is answered with an access token, with a cookie that is
    not a session of the user: the user's sessions are wiped, the cookie is
    cleared, and then the new pair is minted and stored. *)
Lemma handleLogin_suspicious_cookie e req d email u jid a :
  truthy (body_email req) = Some email ->
  user d !! email = Some u ->
  truthy (cookies req !! "jid") = Some jid ->
  refreshToken d !! jid <> Some (user_id u) ->
  let out := serve (handleLogin lib e req) d in
  delivered (trace out.1) = Some (httpStatus.OK, JsonAccessToken a) ->
  let R := createRefreshToken lib (user_id u) (now e) in
  a = createAccessToken lib (user_id u) (now e) /\
  notOwnedBy (user_id u) (refreshToken d) !! R = None /\
  out.2 = Normal tt /\
  trace out.1 =
    [DbTokenDeleteMany (user_id u); ResClearCookie name;
     MintAccess (user_id u) a; MintRefresh (user_id u) R;
     DbTokenCreate R (user_id u); ResCookie name R;
     ResSend httpStatus.OK (JsonAccessToken a)] /\
  refreshToken (db out.1) =
    <[R := user_id u]> (notOwnedBy (user_id u) (refreshToken d)).
Proof.
  intros Hemail Hu Hjid Hsusp.
  unfold serve, handleLogin, loginCookieCleanup. rewrite Hemail, Hjid.
  assert (match refreshToken d !! jid with
          | Some owner => bool_decide (owner <> user_id u)
          | None => true
          end = true) as Hw.
  { destruct (refreshToken d !! jid); [|done].
    apply bool_decide_eq_true_2. congruence. }
  clear Hsusp.
  destruct (truthy (body_password req)) as [pw|]; [|exec; by intros [=]].
  exec. rewrite Hu. cbn.
  destruct (user_emailVerified u), (throw_after_sent lib),
    (argon2_verify lib _ _); exec; try (by intros [=]).
  all: destruct (refreshToken d !! jid) as [o|]; [rewrite Hw|]; exec.
  all: destruct (notOwnedBy _ _ !! _) eqn:E; exec; intros [=]; by subst.
Qed.

(** C6. A successful login that presents a cookie which is not in the store,
    or is a session of another user, wipes every session of the user who
    logs in and clears the cookie before the new pair is minted; afterwards
    the user's only session is the new one. *)
Theorem handleLogin_defensive_wipe
    (e : Env) (req : Request) (d : Db) (email : string) (u : User)
    (jid a : string) :
  truthy (body_email req) = Some email ->
  user d !! email = Some u ->
  truthy (cookies req !! "jid") = Some jid ->
  (refreshToken d !! jid = None \/
   exists other, refreshToken d !! jid = Some other /\ other <> user_id u) ->
  let out := serve (handleLogin lib e req) d in
  delivered (trace out.1) = Some (httpStatus.OK, JsonAccessToken a) ->
  exists R,
    trace out.1 =
      [DbTokenDeleteMany (user_id u); ResClearCookie name;
       MintAccess (user_id u) a; MintRefresh (user_id u) R;
       DbTokenCreate R (user_id u); ResCookie name R;
       ResSend httpStatus.OK (JsonAccessToken a)] /\
    refreshToken (db out.1) =
      <[R := user_id u]> (notOwnedBy (user_id u) (refreshToken d)) /\
    (forall t, refreshToken (db out.1) !! t = Some (user_id u) -> t = R).
Proof.
  intros Hemail Hu Hjid Hsusp out Hok.
  assert (refreshToken d !! jid <> Some (user_id u)) as Hne.
  { destruct Hsusp as [->|(o & -> & Ho)]; congruence. }
  destruct (handleLogin_suspicious_cookie e req d email u jid a
              Hemail Hu Hjid Hne Hok) as (_ & _ & _ & Htr & Hdb).
  fold out in Htr, Hdb. eexists. split_and!; [done..|].
  intros t. rewrite Hdb. intros Ht.
  apply lookup_insert_Some in Ht as [[? _]|[_ Ht]]; [done|].
  by apply notOwnedBy_wiped in Ht.
Qed.

(** C3, as the code has it.  A successful login by a user who presents a
    cookie that is a session of another user wipes the sessions of the user
    who logs in; the sessions of the other user, the presented one among
    them, and of everybody else are left as they were.  The user gets a new
    access token and a new refresh token, stored as the user's session. *)
Theorem handleLogin_foreign_cookie_wipes_own
    (e : Env) (req : Request) (d : Db) (email : string) (u : User)
    (jid a : string) (other : UserId) :
  truthy (body_email req) = Some email ->
  user d !! email = Some u ->
  truthy (cookies req !! "jid") = Some jid ->
  refreshToken d !! jid = Some other ->
  other <> user_id u ->
  let out := serve (handleLogin lib e req) d in
  delivered (trace out.1) = Some (httpStatus.OK, JsonAccessToken a) ->
  exists R,
    a = createAccessToken lib (user_id u) (now e) /\
    R = createRefreshToken lib (user_id u) (now e) /\
    cookieSet name (trace out.1) = [R] /\
    refreshToken (db out.1) !! R = Some (user_id u) /\
    (forall t, refreshToken (db out.1) !! t = Some (user_id u) -> t = R) /\
    (forall t o, o <> user_id u -> refreshToken d !! t = Some o ->
                 refreshToken (db out.1) !! t = Some o) /\
    refreshToken (db out.1) !! jid = Some other.
Proof.
  intros Hemail Hu Hjid Hd Hother out Hok.
  assert (refreshToken d !! jid <> Some (user_id u)) as Hne by congruence.
  destruct (handleLogin_suspicious_cookie e req d email u jid a
              Hemail Hu Hjid Hne Hok) as (Ha & Hfresh & _ & Htr & Hdb).
  fold out in Htr, Hdb. eexists.
  assert (forall t o, o <> user_id u -> refreshToken d !! t = Some o ->
            refreshToken (db out.1) !! t = Some o) as Hkeep.
  { intros t o Ho Ht. rewrite Hdb.
    pose proof (notOwnedBy_other _ _ _ _ Ho Ht) as Hin.
    rewrite lookup_insert_ne; [done|]. intros <-. congruence. }
  split_and!; [done|reflexivity| | | |done|by eapply Hkeep].
  - rewrite Htr. cbn. by rewrite bool_decide_eq_true_2.
  - rewrite Hdb. apply lookup_insert_eq.
  - intros t. rewrite Hdb. intros Ht.
    apply lookup_insert_Some in Ht as [[? _]|[_ Ht]]; [done|].
    by apply notOwnedBy_wiped in Ht.
Qed.

(** The answer to an unverified account (lines 116-120) is not followed by
    a [return]; what stops the handler is the response object.  When it
    raises on a write after the response was sent, the chained [.json]
    raises outside the [try] block and the handler ends there.  A response
    object that only records the calls lets the handler go on to mint both
    tokens and store the session. *)
Theorem handleLogin_unverified_no_return
    (e : Env) (req : Request) (d : Db) (email password : string) (u : User) :
  truthy (body_email req) = Some email ->
  truthy (body_password req) = Some password ->
  user d !! email = Some u ->
  user_emailVerified u = false ->
  argon2_verify lib (user_password u) password = true ->
  truthy (cookies req !! "jid") = None ->
  refreshToken d !! createRefreshToken lib (user_id u) (now e) = None ->
  let out := serve (handleLogin lib e req) d in
  let R := createRefreshToken lib (user_id u) (now e) in
  let A := createAccessToken lib (user_id u) (now e) in
  delivered (trace out.1) = Some (httpStatus.UNAUTHORIZED, StatusText) /\
  if throw_after_sent lib then
    out.2 = Throw ErrHeadersSent /\
    db out.1 = d /\
    trace out.1 = [ResSend httpStatus.UNAUTHORIZED StatusText]
  else
    out.2 = Normal tt /\
    MintAccess (user_id u) A ∈ trace out.1 /\
    ResSend httpStatus.UNAUTHORIZED (JsonAccessToken A) ∈ trace out.1 /\
    cookieSet name (trace out.1) = [R] /\
    refreshToken (db out.1) = <[R := user_id u]> (refreshToken d).
Proof.
  intros Hemail Hpw Hu Hver Hargon Hjid Hfresh.
  unfold serve, handleLogin. rewrite Hemail, Hpw, Hjid. exec.
  rewrite Hu. cbn. rewrite Hver, Hargon. exec.
  destruct (throw_after_sent lib); exec.
  - by split_and!.
  - rewrite Hfresh. exec. rewrite bool_decide_eq_true_2 by done.
    split_and!; try done; in_list.
Qed.

End Login.

(** ** [handleLogout] *)

(** C8. Logout never throws and always answers 204.  Without a cookie it
    writes nothing but the answer; with a cookie it deletes the session of
    that token, if there is one, and no other row; served a second time on
    the store the first call left, it answers 204 again and changes
    nothing. *)
Theorem handleLogout_single_idempotent
    (lib : Collab) (d : Db) (req : Request) :
  let out := serve (handleLogout lib req) d in
  let again := serve (handleLogout lib req) (db out.1) in
  out.2 = Normal tt /\
  delivered (trace out.1) = Some (httpStatus.NO_CONTENT, StatusText) /\
  user (db out.1) = user d /\
  emailVerificationToken (db out.1) = emailVerificationToken d /\
  refreshToken (db out.1) =
    match truthy (cookies req !! "jid") with
    | Some t => delete t (refreshToken d)
    | None => refreshToken d
    end /\
  trace out.1 =
    match truthy (cookies req !! "jid") with
    | None => [ResSend httpStatus.NO_CONTENT StatusText]
    | Some t =>
        match refreshToken d !! t with
        | None => [ResClearCookie (refresh_token_cookie_name lib);
                   ResSend httpStatus.NO_CONTENT StatusText]
        | Some _ => [DbTokenDelete t;
                     ResClearCookie (refresh_token_cookie_name lib);
                     ResSend httpStatus.NO_CONTENT StatusText]
        end
    end /\
  again.2 = Normal tt /\
  delivered (trace again.1) = Some (httpStatus.NO_CONTENT, StatusText) /\
  db again.1 = db out.1 /\
  List.filter isTokenWrite (trace again.1) = [].
Proof.
  unfold serve, handleLogout.
  destruct (truthy (cookies req !! "jid")) as [t|]; [|by exec].
  exec. destruct (refreshToken d !! t) as [o|] eqn:Ht; exec.
  - rewrite Ht. exec. rewrite lookup_delete_eq. by exec.
  - rewrite Ht. exec. by rewrite delete_id.
Qed.

(** ** [handleSingUp] *)

(** C10, as the code has it.  A signup whose email belongs to an existing
    user changes nothing: no row is created and no email is sent.  It is
    answered [Conflict] when username and password are present too, and
    [Bad Request] when one of them is missing. *)
Theorem handleSingUp_existing_email
    (lib : Collab) (e : Env) (req : Request) (d : Db) (email : string)
    (u : User) :
  truthy (body_email req) = Some email ->
  user d !! email = Some u ->
  let out := serve (handleSingUp lib e req) d in
  out.2 = Normal tt /\
  db out.1 = d /\
  trace out.1 =
    match truthy (body_username req), truthy (body_password req) with
    | Some _, Some _ => [ResSend httpStatus.CONFLICT StatusText]
    | _, _ =>
        [ResSend httpStatus.BAD_REQUEST
           (JsonMessage "Username, email and password are required!")]
    end.
Proof.
  intros Hemail Hu. unfold serve, handleSingUp. rewrite Hemail.
  destruct (truthy (body_username req)), (truthy (body_password req));
    exec; rewrite ?Hu; by exec.
Qed.

(** ** Executions: a consumed token *)

Lemma run_cons lib d (j : Job) js :
  run lib d (j :: js) = run lib (step lib d j) js.
Proof. reflexivity. Qed.

(** C4, as the code has it.  Once a refresh token was used in a successful
    refresh, and as long as the codec does not mint that very value again, a
    later refresh call that presents it is answered [Forbidden] and mints
    nothing.  It deletes every session of the subject that verification
    recovers from the token when the token still verifies, and deletes no
    session when it does not. *)
Theorem consumed_token_is_refused
    (lib : Collab) (d : Db) (e1 : Env) (req1 : Request) (t a : string)
    (mid : list Job) (e2 : Env) (req2 : Request) :
  truthy (cookies req1 !! refresh_token_cookie_name lib) = Some t ->
  delivered (trace (serve (handleRefresh lib e1 req1) d).1)
    = Some (httpStatus.OK, JsonAccessToken a) ->
  (forall j uid, j ∈ (Refresh, e1, req1) :: mid ->
                 createRefreshToken lib uid (now j.1.2) <> t) ->
  truthy (cookies req2 !! refresh_token_cookie_name lib) = Some t ->
  let d' := run lib d ((Refresh, e1, req1) :: mid) in
  let out := serve (handleRefresh lib e2 req2) d' in
  absent t d' /\
  delivered (trace out.1) = Some (httpStatus.FORBIDDEN, StatusText) /\
  List.filter isMint (trace out.1) = [] /\
  refreshToken (db out.1) =
    match jwt_verify lib t (now e2) with
    | Some uid => notOwnedBy uid (refreshToken d')
    | None => refreshToken d'
    end /\
  (forall uid t', jwt_verify lib t (now e2) = Some uid ->
                  refreshToken (db out.1) !! t' <> Some uid).
Proof.
  intros Ht1 Hok Hmint Ht2 d' out.
  assert (absent t d') as Habs.
  { unfold d'. rewrite run_cons. apply run_keeps_absent.
    - destruct (handleRefresh_success_inv lib e1 req1 d t a Ht1 Hok)
        as (owner & _ & _ & _ & _ & Hdb).
      unfold absent, step. cbn [handler fst snd]. rewrite Hdb.
      destruct (delete t (refreshToken d) !! _).
      + apply lookup_delete_eq.
      + rewrite lookup_insert_ne; [apply lookup_delete_eq|].
        apply (Hmint (Refresh, e1, req1)). by left.
    - intros j uid Hj. apply Hmint. by right. }
  destruct (handleRefresh_not_found lib e2 req2 d' t Ht2 Habs)
    as (H1 & H2 & _ & _ & H3 & _ & _).
  fold out in H1, H2, H3. split_and!; try done.
  intros uid t' Hv. rewrite H3, Hv. apply notOwnedBy_wiped.
Qed.

(** ** Rotation returns a new token *)


(** ** Worked examples *)

Section Examples.
Import TokenCodec TokenCodecFacts Scenario.

(** Alice holds two sessions, minted at clock 0 and at clock 7; she refreshes
    the first at clock 7, so that the codec mints the second one again and
    the store rejects the insert. *)
Lemma handleRefresh_insert_failure_still_answers_witness :
  let sessions : gmap string UserId :=
    {[ issueRefreshToken 1 0 := 1; issueRefreshToken 1 7 := 1 ]} in
  let out := serve (handleRefresh (collab true) (at_clock 7)
                      (withCookie (issueRefreshToken 1 0)))
                   (database sessions) in
  out.2 = Normal tt /\
  delivered (trace out.1) =
    Some (httpStatus.OK, JsonAccessToken (issueAccessToken 1 7)) /\
  cookieSet "jid" (trace out.1) = [issueRefreshToken 1 7] /\
  LogError ∈ trace out.1 /\
  refreshToken (db out.1) = delete (issueRefreshToken 1 0) sessions.
Proof.
  intros sessions.
  apply (handleRefresh_insert_failure_still_answers (collab true) (at_clock 7)
           (withCookie (issueRefreshToken 1 0)) (database sessions)
           (issueRefreshToken 1 0) 1 1);
    vm_compute; reflexivity.
Defined.

(** Carol, whose email is not verified, logs in with her password. *)
Lemma handleLogin_unverified_no_return_witness :
  let recording := serve (handleLogin (collab false) (at_clock 5)
                            (credentials carol None)) (database ∅) in
  let raising := serve (handleLogin (collab true) (at_clock 5)
                          (credentials carol None)) (database ∅) in
  (delivered (trace recording.1) = Some (httpStatus.UNAUTHORIZED, StatusText) /\
   recording.2 = Normal tt /\
   MintAccess 3 (issueAccessToken 3 5) ∈ trace recording.1 /\
   ResSend httpStatus.UNAUTHORIZED (JsonAccessToken (issueAccessToken 3 5))
     ∈ trace recording.1 /\
   cookieSet "jid" (trace recording.1) = [issueRefreshToken 3 5] /\
   refreshToken (db recording.1) = {[ issueRefreshToken 3 5 := 3 ]}) /\
  (delivered (trace raising.1) = Some (httpStatus.UNAUTHORIZED, StatusText) /\
   raising.2 = Throw ErrHeadersSent /\
   db raising.1 = database ∅ /\
   trace raising.1 = [ResSend httpStatus.UNAUTHORIZED StatusText]).
Proof.
  split.
  - apply (handleLogin_unverified_no_return (collab false) (at_clock 5)
             (credentials carol None) (database ∅)
             (user_email carol) (user_password carol) carol);
      vm_compute; reflexivity.
  - apply (handleLogin_unverified_no_return (collab true) (at_clock 5)
             (credentials carol None) (database ∅)
             (user_email carol) (user_password carol) carol);
      vm_compute; reflexivity.
Defined.

(** Alice logs in with her password and presents a cookie that is a session
    of Bob: her own earlier session is gone afterwards, Bob's session is
    still there. *)
Lemma handleLogin_foreign_cookie_keeps_other_user :
  let sessions : gmap string UserId :=
    {[ issueRefreshToken 1 0 := 1; issueRefreshToken 2 0 := 2 ]} in
  let out := serve (handleLogin (collab true) (at_clock 10)
                      (credentials alice (Some (issueRefreshToken 2 0))))
                   (database sessions) in
  sessions !! issueRefreshToken 2 0 = Some (user_id bob) /\
  sessions !! issueRefreshToken 1 0 = Some (user_id alice) /\
  delivered (trace out.1) =
    Some (httpStatus.OK, JsonAccessToken (issueAccessToken 1 10)) /\
  refreshToken (db out.1) !! issueRefreshToken 2 0 = Some (user_id bob) /\
  refreshToken (db out.1) !! issueRefreshToken 1 0 = None.
Proof. vm_compute. by split_and!. Qed.

Lemma handleLogin_foreign_cookie_wipes_own_witness :
  let sessions : gmap string UserId :=
    {[ issueRefreshToken 1 0 := 1; issueRefreshToken 2 0 := 2 ]} in
  let out := serve (handleLogin (collab true) (at_clock 10)
                      (credentials alice (Some (issueRefreshToken 2 0))))
                   (database sessions) in
  exists R,
    cookieSet "jid" (trace out.1) = [R] /\
    refreshToken (db out.1) !! R = Some 1 /\
    refreshToken (db out.1) !! issueRefreshToken 2 0 = Some 2.
Proof.
  intros sessions out.
  destruct (handleLogin_foreign_cookie_wipes_own (collab true) (at_clock 10)
              (credentials alice (Some (issueRefreshToken 2 0)))
              (database sessions) (user_email alice) alice
              (issueRefreshToken 2 0) (issueAccessToken 1 10) 2)
    as (R & _ & _ & Hc & HR & _ & _ & Hjid);
    [vm_compute; reflexivity ..| vm_compute; lia | vm_compute; reflexivity |].
  exists R. by split_and!.
Defined.

(** Alice logs in and presents a cookie that is in no session. *)
Lemma handleLogin_defensive_wipe_witness :
  let sessions : gmap string UserId :=
    {[ issueRefreshToken 1 0 := 1; issueRefreshToken 2 0 := 2 ]} in
  let out := serve (handleLogin (collab true) (at_clock 10)
                      (credentials alice (Some "stale")))
                   (database sessions) in
  exists R,
    refreshToken (db out.1) = <[R := 1]> (notOwnedBy 1 sessions) /\
    (forall t, refreshToken (db out.1) !! t = Some 1 -> t = R).
Proof.
  intros sessions out.
  destruct (handleLogin_defensive_wipe (collab true) (at_clock 10)
              (credentials alice (Some "stale"))
              (database sessions) (user_email alice) alice
              "stale" (issueAccessToken 1 10))
    as (R & _ & Hdb & Honly);
    [vm_compute; reflexivity ..| left; vm_compute; reflexivity
    | vm_compute; reflexivity |].
  exists R. by split.
Defined.

(** A session of Alice is presented after it has expired: verification
    fails, the session is consumed and the call is refused. *)
Lemma handleRefresh_consumes_before_minting_witness :
  let T := issueRefreshToken 1 0 in
  let out := serve (handleRefresh (collab true) (at_clock 700000)
                      (withCookie T)) (database {[ T := 1 ]}) in
  (exists rest,
     trace out.1 = ResClearCookie "jid" :: DbTokenDelete T :: rest /\
     DbTokenDelete T ∉ rest) /\
  out.2 = Normal tt /\
  delivered (trace out.1) = Some (httpStatus.FORBIDDEN, StatusText) /\
  List.filter isMint (trace out.1) = [] /\
  refreshToken (db out.1) = delete T {[ T := 1 ]}.
Proof.
  intros T out.
  destruct (handleRefresh_consumes_before_minting (collab true)
              (at_clock 700000) (withCookie T) (database {[ T := 1 ]}) T 1)
    as [H1 H2]; [vm_compute; reflexivity ..|].
  split; [exact H1|]. apply H2. vm_compute. discriminate.
Defined.

(** A string that is no token at all, and the replay of a token of Alice
    that is not in the store any more. *)
Lemma handleRefresh_unverifiable_no_wipe_witness :
  let sessions : gmap string UserId := {[ issueRefreshToken 1 3 := 1 ]} in
  let out := serve (handleRefresh (collab true) (at_clock 5)
                      (withCookie "garbage")) (database sessions) in
  let replay := serve (handleRefresh (collab true) (at_clock 5)
                         (withCookie (issueRefreshToken 1 0)))
                      (database sessions) in
  delivered (trace out.1) = Some (httpStatus.FORBIDDEN, StatusText) /\
  db out.1 = database sessions /\
  List.filter isTokenWrite (trace out.1) = [] /\
  delivered (trace replay.1) = delivered (trace out.1) /\
  out.2 = Throw ErrHeadersSent.
Proof.
  intros sessions.
  apply (handleRefresh_unverifiable_no_wipe (collab true) (at_clock 5)
           (withCookie "garbage") (database sessions) "garbage"
           (at_clock 5) (withCookie (issueRefreshToken 1 0))
           (database sessions) (issueRefreshToken 1 0) 1);
    vm_compute; reflexivity.
Defined.

(** A signup without a username for an email that is taken. *)
Lemma handleSingUp_existing_email_bad_request :
  let req := registration None alice in
  let out := serve (handleSingUp (collab true) (at_clock 5) req)
                   (database ∅) in
  user (database ∅) !! user_email alice = Some alice /\
  truthy (body_email req) = Some (user_email alice) /\
  delivered (trace out.1) =
    Some (httpStatus.BAD_REQUEST,
          JsonMessage "Username, email and password are required!") /\
  delivered (trace out.1) <> Some (httpStatus.CONFLICT, StatusText).
Proof. vm_compute. by split_and!. Qed.

Lemma handleSingUp_existing_email_witness :
  let out := serve (handleSingUp (collab true) (at_clock 5)
                      (registration (Some "alice") alice)) (database ∅) in
  out.2 = Normal tt /\
  db out.1 = database ∅ /\
  trace out.1 = [ResSend httpStatus.CONFLICT StatusText].
Proof.
  apply (handleSingUp_existing_email (collab true) (at_clock 5)
           (registration (Some "alice") alice) (database ∅)
           (user_email alice) alice);
    vm_compute; reflexivity.
Defined.


(** Alice holds two sessions.  One is used in a refresh and presented again
    after it has expired: the replay is refused, and her sessions stay. *)
Lemma expired_replay_deletes_nothing :
  let T := issueRefreshToken 1 0 in
  let S := issueRefreshToken 1 3 in
  let first := serve (handleRefresh (collab true) (at_clock 10) (withCookie T))
                     (database {[ T := 1; S := 1 ]}) in
  let later := serve (handleRefresh (collab true) (at_clock 604801)
                        (withCookie T)) (db first.1) in
  delivered (trace first.1) =
    Some (httpStatus.OK, JsonAccessToken (issueAccessToken 1 10)) /\
  delivered (trace later.1) = Some (httpStatus.FORBIDDEN, StatusText) /\
  refreshToken (db later.1) !! S = Some 1 /\
  refreshToken (db later.1) !! issueRefreshToken 1 10 = Some 1 /\
  db later.1 = db first.1.
Proof. vm_compute. by split_and!. Qed.

(** A token of Alice is used in a refresh at clock 10; Bob logs in at clock
    20; the token is presented again at clock 30. *)
Lemma consumed_token_is_refused_witness :
  let T := issueRefreshToken 1 0 in
  let S := issueRefreshToken 1 3 in
  let d := database {[ T := 1; S := 1 ]} in
  let d' := run (collab true) d
              [(Refresh, at_clock 10, withCookie T);
               (Login, at_clock 20, credentials bob None)] in
  let out := serve (handleRefresh (collab true) (at_clock 30) (withCookie T))
                   d' in
  delivered (trace out.1) = Some (httpStatus.FORBIDDEN, StatusText) /\
  refreshToken (db out.1) = {[ issueRefreshToken 2 20 := 2 ]}.
Proof.
  intros T S d d' out.
  destruct (consumed_token_is_refused (collab true) d (at_clock 10)
              (withCookie T) T (issueAccessToken 1 10)
              [(Login, at_clock 20, credentials bob None)]
              (at_clock 30) (withCookie T))
    as (_ & H1 & _ & H2 & _).
  - vm_compute; reflexivity.
  - vm_compute; reflexivity.
  - intros j uid Hj [_ Heq]%issueRefreshToken_inj.
    apply elem_of_cons in Hj as [->|Hj]; [discriminate|].
    apply elem_of_cons in Hj as [->|Hj]; [discriminate|].
    by apply not_elem_of_nil in Hj.
  - vm_compute; reflexivity.
  - split; [exact H1|]. fold d' out in H2. rewrite H2.
    vm_compute. reflexivity.
Defined.

End Examples.

(** * More of the controller *)

(** ** Invariants every handler keeps *)

Section Invariants.
Context (lib : Collab) (e : Env) (P : Db -> Prop).
Hypothesis token_writes : closedUnderTokenWrites lib e P.
Hypothesis user_writes : closedUnderUserWrites P.

Lemma inv_unchanged {A} (m : M A) :
  (forall s, db (m s).1 = db s) -> keeps P m (fun _ => True).
Proof. intros Hm s Hs. rewrite Hm. split; [done|]. by destruct (m s).2. Qed.

Lemma inv_res_sendStatus c : keeps P (res_sendStatus lib c) (fun _ => True).
Proof. apply inv_unchanged. intros s. exec. by destruct (_ && _). Qed.

Lemma inv_res_send_number c :
  keeps P (res_send_number lib c) (fun _ => True).
Proof. apply inv_unchanged. intros s. exec. by destruct (_ && _). Qed.

Lemma inv_res_json b : keeps P (res_json lib b) (fun _ => True).
Proof. apply inv_unchanged. intros s. exec. by destruct (_ && _). Qed.

Lemma inv_res_status c : keeps P (res_status c) (fun _ => True).
Proof. by apply inv_unchanged. Qed.

Lemma inv_res_cookie n v : keeps P (res_cookie lib n v) (fun _ => True).
Proof. apply inv_unchanged. intros s. exec. by destruct (_ && _). Qed.

Lemma inv_res_clearCookie n :
  keeps P (res_clearCookie lib n) (fun _ => True).
Proof. apply inv_unchanged. intros s. exec. by destruct (_ && _). Qed.

Lemma inv_user_findUnique email :
  keeps P (user_findUnique email) (fun _ => True).
Proof. by apply inv_unchanged. Qed.

Lemma inv_refreshToken_findUnique tok :
  keeps P (refreshToken_findUnique tok) (fun _ => True).
Proof. by apply inv_unchanged. Qed.

Lemma inv_sendVerifyEmail email tok :
  keeps P (sendVerifyEmail email tok) (fun _ => True).
Proof. by apply inv_unchanged. Qed.

Lemma inv_mintAccessToken uid :
  keeps P (mintAccessToken lib e uid) (fun _ => True).
Proof. by apply inv_unchanged. Qed.

Lemma inv_mintRefreshToken uid :
  keeps P (mintRefreshToken lib e uid)
        (fun tok => tok = createRefreshToken lib uid (now e)).
Proof. intros s Hs. by split. Qed.

Lemma inv_user_create u : keeps P (user_create u) (fun _ => True).
Proof.
  intros s Hs. exec. destruct (user (db s) !! user_email u); [by split|].
  split; [|done]. cbn. by apply user_writes.
Qed.

Lemma inv_emailVerificationToken_create v :
  keeps P (emailVerificationToken_create v) (fun _ => True).
Proof. intros s Hs. split; [|done]. cbn. by apply user_writes. Qed.

Lemma inv_refreshToken_create uid :
  keeps P (refreshToken_create (createRefreshToken lib uid (now e)) uid)
        (fun _ => True).
Proof.
  intros s Hs. exec.
  destruct (refreshToken (db s) !! _) eqn:Hfree; [by split|].
  split; [|done]. cbn. by apply token_writes.
Qed.

Lemma inv_refreshToken_delete tok :
  keeps P (refreshToken_delete tok) (fun _ => True).
Proof.
  intros s Hs. exec. destruct (refreshToken (db s) !! tok); [|by split].
  split; [|done]. cbn. by apply token_writes.
Qed.

Lemma inv_refreshToken_deleteMany uid :
  keeps P (refreshToken_deleteMany uid) (fun _ => True).
Proof. intros s Hs. split; [|done]. cbn. by apply token_writes. Qed.

Lemma inv_reuseCallback payload :
  keeps P (reuseCallback lib payload) (pendingKeeps P).
Proof.
  destruct payload as [uid|]; cbn.
  - eapply keeps_bind; [apply keeps_emit|]. intros _ _.
    apply keeps_ret. intros k [= <-]. apply inv_refreshToken_deleteMany.
  - eapply keeps_bind; [apply inv_res_sendStatus|]. intros _ _.
    apply keeps_ret. by intros k [=].
Qed.

Lemma inv_rotateCallback owner payload :
  keeps P (rotateCallback lib e owner payload) (pendingKeeps P).
Proof.
  destruct payload as [uid|]; cbn.
  2: { eapply keeps_bind; [apply inv_res_sendStatus|]. intros _ _.
       apply keeps_ret. by intros k [=]. }
  case_bool_decide.
  { eapply keeps_bind; [apply inv_res_sendStatus|]. intros _ _.
    apply keeps_ret. by intros k [=]. }
  eapply keeps_bind; [apply inv_mintAccessToken|]. intros a _.
  eapply keeps_bind; [apply inv_mintRefreshToken|]. intros r ->.
  apply keeps_ret. intros k [= <-].
  eapply keeps_bind.
  { apply keeps_tryCatch; [apply inv_refreshToken_create|].
    intros _. apply keeps_emit. }
  intros _ _.
  eapply keeps_bind; [apply inv_res_cookie|]. intros _ _. apply inv_res_json.
Qed.

End Invariants.

(** One step of the rules for an invariant [P] that is closed under the
    writes; [Ht] and [Hu] name the two closure facts. *)
Ltac inv_step Ht Hu :=
  lazymatch goal with
  | |- keeps _ (bind _ _) _ => eapply keeps_bind; [|intros ? ?]
  | |- keeps _ (tryCatch _ _) _ => eapply keeps_tryCatch; [|intros ?]
  | |- keeps _ (ret _) _ =>
      first [ by apply keeps_ret
            | by apply (keeps_ret _ _ (fun _ => True)) ]
  | |- keeps _ (settle _) _ => by apply keeps_settle
  | |- keeps _ (asyncCallback (reuseCallback _ _)) _ =>
      apply keeps_asyncCallback; by eapply inv_reuseCallback
  | |- keeps _ (asyncCallback (rotateCallback _ _ _ _)) _ =>
      apply keeps_asyncCallback; by eapply inv_rotateCallback
  | |- keeps _ (res_sendStatus _ _) _ => apply inv_res_sendStatus
  | |- keeps _ (res_send_number _ _) _ => apply inv_res_send_number
  | |- keeps _ (res_json _ _) _ => apply inv_res_json
  | |- keeps _ (res_status _) _ => apply inv_res_status
  | |- keeps _ (res_cookie _ _ _) _ => apply inv_res_cookie
  | |- keeps _ (res_clearCookie _ _) _ => apply inv_res_clearCookie
  | |- keeps _ (user_findUnique _) _ => apply inv_user_findUnique
  | |- keeps _ (refreshToken_findUnique _) _ =>
      apply inv_refreshToken_findUnique
  | |- keeps _ (sendVerifyEmail _ _) _ => apply inv_sendVerifyEmail
  | |- keeps _ (mintAccessToken _ _ _) _ => apply inv_mintAccessToken
  | |- keeps _ (mintRefreshToken _ _ _) _ => apply inv_mintRefreshToken
  | |- keeps _ (user_create _) _ => by apply inv_user_create
  | |- keeps _ (emailVerificationToken_create _) _ =>
      by apply inv_emailVerificationToken_create
  | |- keeps _ (refreshToken_create _ _) _ =>
      cbn beta in *; subst; by eapply inv_refreshToken_create
  | |- keeps _ (refreshToken_delete _) _ =>
      by eapply inv_refreshToken_delete
  | |- keeps _ (refreshToken_deleteMany _) _ =>
      by eapply inv_refreshToken_deleteMany
  | |- keeps _ (if ?b then _ else _) _ => destruct b
  | |- keeps _ (match ?x with _ => _ end) _ => destruct x
  end.

Section InvariantHandlers.
Context (lib : Collab) (e : Env) (P : Db -> Prop).

(** Login, logout and refresh keep every invariant that the three writes to
    the refresh-token table keep. *)
Lemma sessions_keep_invariant c req :
  c <> SignUp ->
  closedUnderTokenWrites lib e P ->
  keeps P (handler lib c e req) (fun _ => True).
Proof.
  intros Hc Ht. destruct c; [done| | |]; cbn.
  - unfold handleLogin, loginCookieCleanup. repeat inv_step Ht Ht.
  - unfold handleLogout. repeat inv_step Ht Ht.
  - unfold handleRefresh. repeat inv_step Ht Ht.
Qed.

(** Signup keeps every invariant that the writes to the user tables keep. *)
Lemma signup_keeps_invariant req :
  closedUnderUserWrites P ->
  keeps P (handleSingUp lib e req) (fun _ => True).
Proof. intros Hu. unfold handleSingUp. repeat inv_step Hu Hu. Qed.

Lemma handler_keeps_invariant c req d :
  closedUnderTokenWrites lib e P -> closedUnderUserWrites P ->
  P d -> P (db (serve (handler lib c e req) d).1).
Proof.
  intros Ht Hu Hd.
  assert (keeps P (handler lib c e req) (fun _ => True)) as Hk.
  { destruct c; [by apply signup_keeps_invariant|..];
      by apply sessions_keep_invariant. }
  by apply Hk.
Qed.

End InvariantHandlers.

Lemma run_keeps_invariant lib (P : Db -> Prop) (js : list Job) d :
  (forall j, j ∈ js -> closedUnderTokenWrites lib j.1.2 P) ->
  closedUnderUserWrites P ->
  P d -> P (run lib d js).
Proof.
  revert d. induction js as [|j js IH]; intros d Ht Hu Hd; [done|].
  rewrite run_cons. apply IH; [|done|].
  - intros j' Hj'. apply Ht. by right.
  - unfold step. apply handler_keeps_invariant; [|done..]. apply Ht. by left.
Qed.

(** *** Where the sessions of the store come from *)

Lemma provenance_token_writes lib d0 js (j : Job) :
  j ∈ js -> closedUnderTokenWrites lib j.1.2 (provenance lib d0 js).
Proof.
  intros Hj. unfold closedUnderTokenWrites, provenance, setTokens. cbn.
  split_and!.
  - intros d tok Hd t o [_ Ht]%lookup_delete_Some. by apply Hd.
  - intros d uid Hd t o [Ht _]%notOwnedBy_lookup. by apply Hd.
  - intros d uid Hd _ t o [[<- <-]|[_ Ht]]%lookup_insert_Some.
    + right. by exists j.
    + by apply Hd.
Qed.

Lemma provenance_user_writes lib d0 js :
  closedUnderUserWrites (provenance lib d0 js).
Proof. split; intros d x Hd t o Ht; by apply Hd. Qed.

(** X13. Whatever requests are served, a session that is in the store
    afterwards was in the store before, with the same owner, or its token
    is what the codec mints for its owner at the clock reading of one of
    the requests: no handler stores a token it did not mint, and none hands
    a session to another user. *)
Theorem run_sessions_provenance
    (lib : Collab) (d0 : Db) (js : list Job) (t : string) (o : UserId) :
  refreshToken (run lib d0 js) !! t = Some o ->
  refreshToken d0 !! t = Some o \/ mintedIn lib js t o.
Proof.
  revert t o. change (provenance lib d0 js (run lib d0 js)).
  apply run_keeps_invariant.
  - intros j Hj. by apply provenance_token_writes.
  - apply provenance_user_writes.
  - intros t o Ht. by left.
Qed.

(** *** Sessions are owned by the subject of their token *)

Section SubjectOwned.
Context (lib : Collab).
Hypothesis names_subject :
  forall uid t0 clock uid',
    jwt_verify lib (createRefreshToken lib uid t0) clock = Some uid' ->
    uid' = uid.

Lemma subjectOwned_token_writes e :
  closedUnderTokenWrites lib e (subjectOwned lib).
Proof.
  unfold closedUnderTokenWrites, subjectOwned, setTokens. cbn. split_and!.
  - intros d tok Hd t o c u [_ Ht]%lookup_delete_Some. by eapply Hd.
  - intros d uid Hd t o c u [Ht _]%notOwnedBy_lookup. by eapply Hd.
  - intros d uid Hd _ t o c u [[<- <-]|[_ Ht]]%lookup_insert_Some.
    + apply names_subject.
    + by eapply Hd.
Qed.

Lemma subjectOwned_user_writes : closedUnderUserWrites (subjectOwned lib).
Proof. split; intros d x Hd t o c u Ht; by eapply Hd. Qed.

Lemma run_subjectOwned d js :
  subjectOwned lib d -> subjectOwned lib (run lib d js).
Proof.
  apply run_keeps_invariant.
  - intros j _. apply subjectOwned_token_writes.
  - apply subjectOwned_user_writes.
Qed.

End SubjectOwned.

(** X14. When verification of a minted token can only name the user it was
    minted for, the sessions of a store that started out that way stay owned
    by the subject of their token through every execution; the comparison of
    owner and subject on line 286 then never rejects: a refresh that
    presents a stored token that verifies is rotated. *)
Theorem owner_check_never_rejects
    (lib : Collab) (d0 : Db) (js : list Job) (e : Env) (req : Request)
    (t : string) (owner uid : UserId) :
  (forall u t0 clock u',
     jwt_verify lib (createRefreshToken lib u t0) clock = Some u' -> u' = u) ->
  subjectOwned lib d0 ->
  truthy (cookies req !! refresh_token_cookie_name lib) = Some t ->
  refreshToken (run lib d0 js) !! t = Some owner ->
  jwt_verify lib t (now e) = Some uid ->
  let out := serve (handleRefresh lib e req) (run lib d0 js) in
  uid = owner /\
  delivered (trace out.1) =
    Some (httpStatus.OK,
          JsonAccessToken (createAccessToken lib owner (now e))).
Proof.
  intros Hcodec Hd0 Ht Hfound Hv out.
  assert (uid = owner) as ->.
  { eapply (run_subjectOwned lib Hcodec d0 js Hd0); eauto. }
  split; [done|].
  destruct (handleRefresh_found lib e req _ t owner Ht Hfound) as [_ H].
  fold out in H. rewrite bool_decide_eq_true_2 in H by done.
  destruct H as [-> _]. by destruct (delete t _ !! _).
Qed.

(** *** Which tables a handler writes *)

(** X15. Login, logout and refresh never write to the [user] table or to
    the [emailVerificationToken] table, whatever the request. *)
Theorem sessions_never_write_users
    (lib : Collab) (c : Call) (e : Env) (req : Request) (d : Db) :
  c <> SignUp ->
  let out := serve (handler lib c e req) d in
  user (db out.1) = user d /\
  emailVerificationToken (db out.1) = emailVerificationToken d.
Proof.
  intros Hc out.
  pose (P := fun d' : Db => user d' = user d /\
                emailVerificationToken d' = emailVerificationToken d).
  assert (keeps P (handler lib c e req) (fun _ => True)) as Hk.
  { apply sessions_keep_invariant; [done|]. by split_and!. }
  by apply Hk.
Qed.

(** ** [handleSingUp] *)

Section SignUp.
Context (lib : Collab).

(** X1. A signup with all three fields and an email that is not taken
    stores the user under that email with the argon2 hash of the password
    and an unverified email, appends a verification token that expires one
    hour after the request and belongs to the new user, sends that same
    token by email, and answers 201.  The refresh-token table is left
    alone. *)
Theorem handleSingUp_creates_account
    (e : Env) (req : Request) (d : Db) (username email password : string) :
  truthy (body_username req) = Some username ->
  truthy (body_email req) = Some email ->
  truthy (body_password req) = Some password ->
  user d !! email = None ->
  let out := serve (handleSingUp lib e req) d in
  let u := mkUser (new_user_id e) username email
                  (argon2_hash lib password) false in
  out.2 = Normal tt /\
  db out.1 =
    mkDb (<[email := u]> (user d)) (refreshToken d)
         (emailVerificationToken d ++
          [mkEVT (uuidv4 e) (now e + 3600000)%N (new_user_id e)]) /\
  trace out.1 =
    [DbUserCreate email; DbEmailTokenCreate (uuidv4 e);
     SendVerifyEmail email (uuidv4 e);
     ResSend httpStatus.CREATED (JsonMessage "New user created")].
Proof.
  intros Hn He Hp Hfree. unfold serve, handleSingUp. rewrite Hn, He, Hp.
  exec. rewrite Hfree. exec. rewrite Hfree. by exec.
Qed.

(** X2. A signup that lacks the username, the email or the password is
    answered 400 before anything is looked up; nothing is written. *)
Theorem handleSingUp_missing_field
    (e : Env) (req : Request) (d : Db) :
  truthy (body_username req) = None \/ truthy (body_email req) = None \/
  truthy (body_password req) = None ->
  let out := serve (handleSingUp lib e req) d in
  out.2 = Normal tt /\
  db out.1 = d /\
  trace out.1 =
    [ResSend httpStatus.BAD_REQUEST
       (JsonMessage "Username, email and password are required!")].
Proof.
  intros Hmiss. unfold serve, handleSingUp.
  destruct (truthy (body_username req)), (truthy (body_email req)),
    (truthy (body_password req)); try by exec.
  by destruct Hmiss as [?|[?|?]].
Qed.

(** X3. Whatever the request, signup never raises, writes exactly one
    answer, with status 400, 409 or 201, and never touches the
    refresh-token table. *)
Theorem handleSingUp_answers_once
    (e : Env) (req : Request) (d : Db) :
  let out := serve (handleSingUp lib e req) d in
  out.2 = Normal tt /\
  refreshToken (db out.1) = refreshToken d /\
  exists c b,
    sends (trace out.1) = [ResSend c b] /\
    c ∈ [httpStatus.BAD_REQUEST; httpStatus.CONFLICT; httpStatus.CREATED].
Proof.
  unfold serve, handleSingUp.
  destruct (truthy (body_username req)) as [n|],
    (truthy (body_email req)) as [m|],
    (truthy (body_password req)) as [p|]; exec;
    try (split_and!; [done..|]; do 2 eexists; split; [done|in_list]).
  destruct (user d !! m) eqn:Hm; exec; rewrite ?Hm; exec;
    (split_and!; [done..|]; do 2 eexists; split; [done|in_list]).
Qed.

End SignUp.

(** ** [handleLogin] *)

Section LoginPaths.
Context (lib : Collab).

Local Abbreviation name := (refresh_token_cookie_name lib).

(** X4. A login that lacks the email or the password is answered 400
    before anything is looked up; nothing is written. *)
Theorem handleLogin_missing_field
    (e : Env) (req : Request) (d : Db) :
  truthy (body_email req) = None \/ truthy (body_password req) = None ->
  let out := serve (handleLogin lib e req) d in
  out.2 = Normal tt /\
  db out.1 = d /\
  trace out.1 =
    [ResSend httpStatus.BAD_REQUEST
       (JsonMessage "Email and password are required!")].
Proof.
  intros Hmiss. unfold serve, handleLogin.
  destruct (truthy (body_email req)), (truthy (body_password req));
    try by exec.
  by destruct Hmiss.
Qed.

(** X5. An unknown email and a wrong password are answered alike: the
    client receives 401 with the status text, nothing is minted and no
    table is written. *)
Theorem handleLogin_rejects_alike
    (e : Env) (req : Request) (d : Db) (email password : string) :
  truthy (body_email req) = Some email ->
  truthy (body_password req) = Some password ->
  (user d !! email = None \/
   exists u, user d !! email = Some u /\
             argon2_verify lib (user_password u) password = false) ->
  let out := serve (handleLogin lib e req) d in
  delivered (trace out.1) = Some (httpStatus.UNAUTHORIZED, StatusText) /\
  db out.1 = d /\
  List.filter isMint (trace out.1) = [] /\
  List.filter isTokenWrite (trace out.1) = [] /\
  cookieSet name (trace out.1) = [].
Proof.
  intros He Hp Hbad. unfold serve, handleLogin. rewrite He, Hp. exec.
  destruct Hbad as [->|(u & -> & Hpw)]; exec; [done|].
  rewrite Hpw.
  destruct (user_emailVerified u), (throw_after_sent lib); by exec.
Qed.

(** The state a login leaves when the password is right, the email is
    verified and the new session can be stored. *)
Lemma handleLogin_no_cookie e req d email password u :
  truthy (body_email req) = Some email ->
  truthy (body_password req) = Some password ->
  user d !! email = Some u ->
  user_emailVerified u = true ->
  argon2_verify lib (user_password u) password = true ->
  truthy (cookies req !! "jid") = None ->
  let R := createRefreshToken lib (user_id u) (now e) in
  let A := createAccessToken lib (user_id u) (now e) in
  serve (handleLogin lib e req) d =
    (match refreshToken d !! R with
     | None =>
         mkHState (setTokens d (<[R := user_id u]> (refreshToken d)))
           httpStatus.OK
           [MintAccess (user_id u) A; MintRefresh (user_id u) R;
            DbTokenCreate R (user_id u); ResCookie name R;
            ResSend httpStatus.OK (JsonAccessToken A)]
     | Some _ =>
         mkHState d httpStatus.INTERNAL_SERVER_ERROR
           [MintAccess (user_id u) A; MintRefresh (user_id u) R;
            DbTokenCreate R (user_id u);
            ResSend httpStatus.INTERNAL_SERVER_ERROR StatusText]
     end, Normal tt).
Proof.
  intros He Hp Hu Hver Hpw Hjid. unfold serve, handleLogin.
  rewrite He, Hp, Hjid. exec. rewrite Hu. cbn. rewrite Hver, Hpw. exec.
  by destruct (refreshToken d !! _); exec.
Qed.

Lemma handleLogin_own_cookie e req d email password u jid :
  truthy (body_email req) = Some email ->
  truthy (body_password req) = Some password ->
  user d !! email = Some u ->
  user_emailVerified u = true ->
  argon2_verify lib (user_password u) password = true ->
  truthy (cookies req !! "jid") = Some jid ->
  refreshToken d !! jid = Some (user_id u) ->
  let R := createRefreshToken lib (user_id u) (now e) in
  let A := createAccessToken lib (user_id u) (now e) in
  let rest := delete jid (refreshToken d) in
  serve (handleLogin lib e req) d =
    (match rest !! R with
     | None =>
         mkHState (setTokens d (<[R := user_id u]> rest)) httpStatus.OK
           [DbTokenDelete jid; ResClearCookie name;
            MintAccess (user_id u) A; MintRefresh (user_id u) R;
            DbTokenCreate R (user_id u); ResCookie name R;
            ResSend httpStatus.OK (JsonAccessToken A)]
     | Some _ =>
         mkHState (setTokens d rest) httpStatus.INTERNAL_SERVER_ERROR
           [DbTokenDelete jid; ResClearCookie name;
            MintAccess (user_id u) A; MintRefresh (user_id u) R;
            DbTokenCreate R (user_id u);
            ResSend httpStatus.INTERNAL_SERVER_ERROR StatusText]
     end, Normal tt).
Proof.
  intros He Hp Hu Hver Hpw Hjid Hown. unfold serve, handleLogin,
    loginCookieCleanup.
  rewrite He, Hp, Hjid. exec. rewrite Hu. cbn. rewrite Hver, Hpw. exec.
  rewrite Hown. rewrite bool_decide_eq_false_2 by naive_solver. exec.
  rewrite Hown. exec.
  by destruct (delete jid (refreshToken d) !! _); exec.
Qed.

(** X7. A login without a cookie deletes nothing: the sessions that were
    in the store stay, and the new one is added to them. *)
Theorem handleLogin_without_cookie_keeps_sessions
    (e : Env) (req : Request) (d : Db) (email password : string) (u : User) :
  truthy (body_email req) = Some email ->
  truthy (body_password req) = Some password ->
  user d !! email = Some u ->
  user_emailVerified u = true ->
  argon2_verify lib (user_password u) password = true ->
  truthy (cookies req !! "jid") = None ->
  refreshToken d !! createRefreshToken lib (user_id u) (now e) = None ->
  let out := serve (handleLogin lib e req) d in
  let R := createRefreshToken lib (user_id u) (now e) in
  delivered (trace out.1) =
    Some (httpStatus.OK,
          JsonAccessToken (createAccessToken lib (user_id u) (now e))) /\
  cookieSet name (trace out.1) = [R] /\
  List.filter isTokenWrite (trace out.1) = [DbTokenCreate R (user_id u)] /\
  refreshToken (db out.1) = <[R := user_id u]> (refreshToken d) /\
  refreshToken d ⊆ refreshToken (db out.1).
Proof.
  intros He Hp Hu Hver Hpw Hjid Hfree out R.
  subst out R.
  rewrite (handleLogin_no_cookie e req d email password u) by done.
  cbn zeta. rewrite Hfree. cbn. rewrite bool_decide_eq_true_2 by done.
  split_and!; try done. by apply insert_subseteq.
Qed.

(** X8. A login that presents one of the user's own sessions deletes that
    session and no other: the other sessions of the user and of everybody
    else stay as they were. *)
Theorem handleLogin_own_cookie_deletes_one
    (e : Env) (req : Request) (d : Db) (email password : string) (u : User)
    (jid : string) :
  truthy (body_email req) = Some email ->
  truthy (body_password req) = Some password ->
  user d !! email = Some u ->
  user_emailVerified u = true ->
  argon2_verify lib (user_password u) password = true ->
  truthy (cookies req !! "jid") = Some jid ->
  refreshToken d !! jid = Some (user_id u) ->
  delete jid (refreshToken d) !! createRefreshToken lib (user_id u) (now e)
    = None ->
  let out := serve (handleLogin lib e req) d in
  let R := createRefreshToken lib (user_id u) (now e) in
  delivered (trace out.1) =
    Some (httpStatus.OK,
          JsonAccessToken (createAccessToken lib (user_id u) (now e))) /\
  cookieSet name (trace out.1) = [R] /\
  List.filter isTokenWrite (trace out.1) =
    [DbTokenDelete jid; DbTokenCreate R (user_id u)] /\
  refreshToken (db out.1) = <[R := user_id u]> (delete jid (refreshToken d)) /\
  (forall t, t <> jid -> t <> R ->
             refreshToken (db out.1) !! t = refreshToken d !! t).
Proof.
  intros He Hp Hu Hver Hpw Hjid Hown Hfree out R.
  subst out R.
  rewrite (handleLogin_own_cookie e req d email password u jid) by done.
  cbn zeta. rewrite Hfree. cbn. rewrite bool_decide_eq_true_2 by done.
  split_and!; try done.
  intros t H1 H2. by rewrite lookup_insert_ne, lookup_delete_ne.
Qed.

(** X9. When the new session cannot be stored, the login is answered 500
    and the response carries neither an access token nor a refresh cookie;
    the session that was presented is deleted all the same, and the cookie
    is cleared. *)
Theorem handleLogin_insert_conflict
    (e : Env) (req : Request) (d : Db) (email password : string) (u : User)
    (jid : string) (o : UserId) :
  truthy (body_email req) = Some email ->
  truthy (body_password req) = Some password ->
  user d !! email = Some u ->
  user_emailVerified u = true ->
  argon2_verify lib (user_password u) password = true ->
  truthy (cookies req !! "jid") = Some jid ->
  refreshToken d !! jid = Some (user_id u) ->
  delete jid (refreshToken d) !! createRefreshToken lib (user_id u) (now e)
    = Some o ->
  let out := serve (handleLogin lib e req) d in
  out.2 = Normal tt /\
  sends (trace out.1) = [ResSend httpStatus.INTERNAL_SERVER_ERROR StatusText] /\
  cookieSet name (trace out.1) = [] /\
  ResClearCookie name ∈ trace out.1 /\
  refreshToken (db out.1) = delete jid (refreshToken d).
Proof.
  intros He Hp Hu Hver Hpw Hjid Hown Hdup out.
  subst out.
  rewrite (handleLogin_own_cookie e req d email password u jid) by done.
  cbn zeta. rewrite Hdup. cbn. split_and!; try done. in_list.
Qed.

(** X6. A login that is answered 200 with an access token was made with
    the right password for an account whose email is verified; the access
    token is the one minted for that user, the cookie carries exactly one
    refresh token, and that token is stored as a session of that user. *)
Theorem handleLogin_success_is_backed
    (e : Env) (req : Request) (d : Db) (a : string) :
  let out := serve (handleLogin lib e req) d in
  delivered (trace out.1) = Some (httpStatus.OK, JsonAccessToken a) ->
  exists email password u,
    truthy (body_email req) = Some email /\
    truthy (body_password req) = Some password /\
    user d !! email = Some u /\
    user_emailVerified u = true /\
    argon2_verify lib (user_password u) password = true /\
    a = createAccessToken lib (user_id u) (now e) /\
    cookieSet name (trace out.1) =
      [createRefreshToken lib (user_id u) (now e)] /\
    refreshToken (db out.1) !! createRefreshToken lib (user_id u) (now e)
      = Some (user_id u) /\
    out.2 = Normal tt.
Proof.
  intros out. unfold out, serve, handleLogin, loginCookieCleanup.
  destruct (truthy (body_email req)) as [email|] eqn:He; [|exec; by intros [=]].
  destruct (truthy (body_password req)) as [pw|] eqn:Hp;
    [|exec; by intros [=]].
  exec. destruct (user d !! email) as [u|] eqn:Hu; exec; [|by intros [=]].
  destruct (user_emailVerified u) eqn:Hver; exec.
  2: { destruct (throw_after_sent lib); exec; [by intros [=]|].
       destruct (argon2_verify lib _ _); exec; [|by intros [=]].
       destruct (truthy (cookies req !! "jid")); exec.
       - destruct (refreshToken d !! s) as [o|] eqn:Ho; exec.
         + case_bool_decide; exec.
           * destruct (notOwnedBy _ _ !! _); exec; by intros [=].
           * rewrite Ho. exec.
             destruct (delete s _ !! _); exec; by intros [=].
         + destruct (notOwnedBy _ _ !! _); exec; by intros [=].
       - destruct (refreshToken d !! _); exec; by intros [=]. }
  destruct (argon2_verify lib _ _) eqn:Hpw; exec; [|by intros [=]].
  destruct (truthy (cookies req !! "jid")) as [jid|]; exec.
  - destruct (refreshToken d !! jid) as [o|] eqn:Ho; exec.
    + case_bool_decide; exec.
      * destruct (notOwnedBy _ _ !! _); exec; intros [=]; subst.
        exists email, pw, u. rewrite bool_decide_eq_true_2 by done.
        split_and!; try done. apply lookup_insert_eq.
      * rewrite Ho. exec.
        destruct (delete jid _ !! _); exec; intros [=]; subst.
        exists email, pw, u. rewrite bool_decide_eq_true_2 by done.
        split_and!; try done. apply lookup_insert_eq.
    + destruct (notOwnedBy _ _ !! _); exec; intros [=]; subst.
      exists email, pw, u. rewrite bool_decide_eq_true_2 by done.
      split_and!; try done. apply lookup_insert_eq.
  - destruct (refreshToken d !! _); exec; intros [=]; subst.
    exists email, pw, u. rewrite bool_decide_eq_true_2 by done.
    split_and!; try done. apply lookup_insert_eq.
Qed.

End LoginPaths.

(** ** [handleRefresh] *)

Section RefreshPaths.
Context (lib : Collab).

Local Abbreviation name := (refresh_token_cookie_name lib).

(** X10. A refresh without the cookie, or with an empty one, is answered
    401 and does nothing else: the cookie is not cleared and no table is
    read or written. *)
Theorem handleRefresh_without_token
    (e : Env) (req : Request) (d : Db) :
  truthy (cookies req !! name) = None ->
  let out := serve (handleRefresh lib e req) d in
  out.2 = Normal tt /\
  db out.1 = d /\
  trace out.1 = [ResSend httpStatus.UNAUTHORIZED StatusText].
Proof.
  intros Hnone. unfold serve, handleRefresh. rewrite Hnone. by exec.
Qed.

(** X11. A rotation replaces the presented session by the new one and
    touches no other session: every other token keeps its owner and the
    number of sessions stays the same. *)
Theorem handleRefresh_rotation_replaces_one
    (e : Env) (req : Request) (d : Db) (t : string) (owner : UserId) :
  truthy (cookies req !! name) = Some t ->
  refreshToken d !! t = Some owner ->
  jwt_verify lib t (now e) = Some owner ->
  delete t (refreshToken d) !! createRefreshToken lib owner (now e) = None ->
  let out := serve (handleRefresh lib e req) d in
  let R := createRefreshToken lib owner (now e) in
  delivered (trace out.1) =
    Some (httpStatus.OK,
          JsonAccessToken (createAccessToken lib owner (now e))) /\
  cookieSet name (trace out.1) = [R] /\
  refreshToken (db out.1) = <[R := owner]> (delete t (refreshToken d)) /\
  (forall t', t' <> t -> t' <> R ->
              refreshToken (db out.1) !! t' = refreshToken d !! t') /\
  size (refreshToken (db out.1)) = size (refreshToken d).
Proof.
  intros Ht Hd Hv Hfree out R.
  destruct (handleRefresh_found lib e req d t owner Ht Hd) as [_ H].
  fold out R in H. rewrite bool_decide_eq_true_2 in H by done.
  fold R in Hfree. rewrite Hfree in H. destruct H as [Htr Hdb].
  rewrite Htr, Hdb. cbn. rewrite bool_decide_eq_true_2 by done.
  split_and!; try done.
  - intros t' H1 H2. by rewrite lookup_insert_ne, lookup_delete_ne.
  - rewrite map_size_insert_None by done.
    rewrite map_size_delete_Some by eauto.
    assert (size (refreshToken d) <> 0); [|lia].
    intros Hz%map_size_empty_inv. by rewrite Hz, lookup_empty in Hd.
Qed.

(** X12. The replay of a token that is not in the store but still verifies
    deletes the sessions of the subject of the token and of nobody else.
    The handler does not wait for the callback: the answer 403 is written
    before the delete is made. *)
Theorem handleRefresh_reuse_wipes_subject_only
    (e : Env) (req : Request) (d : Db) (t : string) (uid : UserId) :
  truthy (cookies req !! name) = Some t ->
  refreshToken d !! t = None ->
  jwt_verify lib t (now e) = Some uid ->
  let out := serve (handleRefresh lib e req) d in
  out.2 = Normal tt /\
  trace out.1 =
    [ResClearCookie name; LogWarn;
     ResSend httpStatus.FORBIDDEN StatusText; DbTokenDeleteMany uid] /\
  (forall t', refreshToken (db out.1) !! t' <> Some uid) /\
  (forall t' o, o <> uid -> refreshToken d !! t' = Some o ->
                refreshToken (db out.1) !! t' = Some o).
Proof.
  intros Ht Hd Hv. unfold serve, handleRefresh, reuseCallback. rewrite Ht.
  exec. rewrite Hd. exec. rewrite Hv. exec. split_and!; try done.
  - intros t'. apply notOwnedBy_wiped.
  - intros t' o Ho Hin. by apply notOwnedBy_other.
Qed.

(** X18. Every refresh call is answered, with 401, 403 or 200, and the body
    carries an access token exactly when the status is 200.  The handler
    ends normally, except that the second write of line 271 raises when the
    token is neither stored nor verifiable and the response object raises
    on writes after the answer. *)
Theorem handleRefresh_always_answers
    (e : Env) (req : Request) (d : Db) :
  let out := serve (handleRefresh lib e req) d in
  (exists c b,
     delivered (trace out.1) = Some (c, b) /\
     c ∈ [httpStatus.UNAUTHORIZED; httpStatus.FORBIDDEN; httpStatus.OK] /\
     (c = httpStatus.OK <-> exists a, b = JsonAccessToken a)) /\
  (out.2 = Normal tt \/
   throw_after_sent lib = true /\
   exists t, truthy (cookies req !! name) = Some t /\
             refreshToken d !! t = None /\
             jwt_verify lib t (now e) = None).
Proof.
  intros out.
  destruct (truthy (cookies req !! name)) as [t|] eqn:Ht.
  2: { subst out. unfold serve, handleRefresh. rewrite Ht. exec.
       split; [|by left]. do 2 eexists. split; [done|]. split; [in_list|].
       split; [done|]. by intros [a [=]]. }
  destruct (refreshToken d !! t) as [owner|] eqn:Hd.
  - destruct (handleRefresh_found lib e req d t owner Ht Hd) as [H1 H2].
    fold out in H1, H2. split; [|by left]. case_bool_decide.
    + destruct H2 as [-> _]. do 2 eexists.
      split; [by destruct (delete t _ !! _)|]. split; [in_list|].
      split; [by eauto|done].
    + destruct H2 as [-> _]. do 2 eexists. split; [done|].
      split; [in_list|]. split; [done|]. by intros [a [=]].
  - destruct (handleRefresh_not_found lib e req d t Ht Hd)
      as (H1 & _ & _ & _ & _ & _ & H2).
    fold out in H1, H2. split.
    + do 2 eexists. split; [done|]. split; [in_list|].
      split; [done|]. by intros [a [=]].
    + destruct (jwt_verify lib t (now e)) eqn:Hv; [by left|].
      destruct (throw_after_sent lib); [right|by left]. eauto.
Qed.

End RefreshPaths.

(** ** Handlers in sequence *)

Section RoundTrips.
Context (lib : Collab).

Local Abbreviation name := (refresh_token_cookie_name lib).

(** X16. Logout undoes login: after a login without a cookie, a logout
    that presents the refresh token of that login leaves the database as
    it was before the login. *)
Theorem login_then_logout_restores
    (e : Env) (req : Request) (d : Db) (email password : string) (u : User)
    (req2 : Request) :
  truthy (body_email req) = Some email ->
  truthy (body_password req) = Some password ->
  user d !! email = Some u ->
  user_emailVerified u = true ->
  argon2_verify lib (user_password u) password = true ->
  truthy (cookies req !! "jid") = None ->
  refreshToken d !! createRefreshToken lib (user_id u) (now e) = None ->
  truthy (cookies req2 !! "jid")
    = Some (createRefreshToken lib (user_id u) (now e)) ->
  let login := serve (handleLogin lib e req) d in
  let logout := serve (handleLogout lib req2) (db login.1) in
  refreshToken (db login.1) !! createRefreshToken lib (user_id u) (now e)
    = Some (user_id u) /\
  delivered (trace logout.1) = Some (httpStatus.NO_CONTENT, StatusText) /\
  db logout.1 = d.
Proof.
  intros He Hp Hu Hver Hpw Hjid Hfree Hjid2 login logout. subst logout login.
  rewrite (handleLogin_no_cookie lib e req d email password u) by done.
  cbn zeta. rewrite Hfree. cbn [fst db].
  unfold serve, handleLogout. rewrite Hjid2. exec.
  rewrite !lookup_insert_eq. exec. rewrite !lookup_insert_eq. exec.
  split_and!; try done.
  rewrite delete_insert_id by done. apply Db_eta.
Qed.

(** X17. The refresh token that a login hands out is accepted by refresh:
    presented while it verifies for the user, it is exchanged for the token
    minted at that moment, and the session table ends up as it was before
    the login, plus that one new session. *)
Theorem login_then_refresh_rotates
    (e : Env) (req : Request) (d : Db) (email password : string) (u : User)
    (e2 : Env) (req2 : Request) :
  truthy (body_email req) = Some email ->
  truthy (body_password req) = Some password ->
  user d !! email = Some u ->
  user_emailVerified u = true ->
  argon2_verify lib (user_password u) password = true ->
  truthy (cookies req !! "jid") = None ->
  refreshToken d !! createRefreshToken lib (user_id u) (now e) = None ->
  truthy (cookies req2 !! name)
    = Some (createRefreshToken lib (user_id u) (now e)) ->
  jwt_verify lib (createRefreshToken lib (user_id u) (now e)) (now e2)
    = Some (user_id u) ->
  refreshToken d !! createRefreshToken lib (user_id u) (now e2) = None ->
  let login := serve (handleLogin lib e req) d in
  let refresh := serve (handleRefresh lib e2 req2) (db login.1) in
  delivered (trace refresh.1) =
    Some (httpStatus.OK,
          JsonAccessToken (createAccessToken lib (user_id u) (now e2))) /\
  cookieSet name (trace refresh.1)
    = [createRefreshToken lib (user_id u) (now e2)] /\
  refreshToken (db refresh.1) =
    <[createRefreshToken lib (user_id u) (now e2) := user_id u]>
      (refreshToken d).
Proof.
  intros He Hp Hu Hver Hpw Hjid Hfree Hjid2 Hv Hfree2 login refresh.
  subst refresh login.
  rewrite (handleLogin_no_cookie lib e req d email password u) by done.
  cbn zeta. rewrite Hfree. cbn [fst db].
  set (R := createRefreshToken lib (user_id u) (now e)) in *.
  set (d1 := setTokens d (<[R := user_id u]> (refreshToken d))).
  assert (refreshToken d1 !! R = Some (user_id u)) as Hd1
    by apply lookup_insert_eq.
  destruct (handleRefresh_found lib e2 req2 d1 R (user_id u) Hjid2 Hd1)
    as [_ H].
  rewrite bool_decide_eq_true_2 in H by done.
  assert (delete R (refreshToken d1) = refreshToken d) as Hdel
    by (by apply delete_insert_id).
  rewrite Hdel, Hfree2 in H. destruct H as [-> ->]. cbn.
  by rewrite bool_decide_eq_true_2.
Qed.

End RoundTrips.

(** ** Worked examples, continued *)

Section MoreExamples.
Import TokenCodec TokenCodecFacts Scenario.

(** The codec of the design names in a token the user it was minted for. *)
Lemma collab_names_subject strict u t0 clock u' :
  jwt_verify (collab strict) (createRefreshToken (collab strict) u t0) clock
    = Some u' ->
  u' = u.
Proof.
  cbn. intros [x Hx]%verifyRefresh_subject.
  unfold issueRefreshToken in Hx. rewrite claims_sign in Hx by done.
  by injection Hx.
Qed.

(** Dave signs up at clock 100. *)
Lemma handleSingUp_creates_account_witness :
  let req := mkRequest (Some "dave") (Some "dave@example.org")
                       (Some "pw-dave") ∅ in
  let out := serve (handleSingUp (collab true) (at_clock 100) req)
                   (database ∅) in
  out.2 = Normal tt /\
  db out.1 =
    mkDb (<[ "dave@example.org" :=
             mkUser 4 "dave" "dave@example.org" "pw-dave" false ]> users)
         ∅ [mkEVT "4f9c" 3600100 4] /\
  trace out.1 =
    [DbUserCreate "dave@example.org"; DbEmailTokenCreate "4f9c";
     SendVerifyEmail "dave@example.org" "4f9c";
     ResSend httpStatus.CREATED (JsonMessage "New user created")].
Proof.
  apply (handleSingUp_creates_account (collab true) (at_clock 100)
           (mkRequest (Some "dave") (Some "dave@example.org")
                      (Some "pw-dave") ∅)
           (database ∅) "dave" "dave@example.org" "pw-dave");
    vm_compute; reflexivity.
Defined.

(** A signup with an empty password. *)
Lemma handleSingUp_missing_field_witness :
  let req := mkRequest (Some "dave") (Some "dave@example.org")
                       (Some EmptyString) ∅ in
  let out := serve (handleSingUp (collab true) (at_clock 100) req)
                   (database ∅) in
  out.2 = Normal tt /\
  db out.1 = database ∅ /\
  trace out.1 =
    [ResSend httpStatus.BAD_REQUEST
       (JsonMessage "Username, email and password are required!")].
Proof.
  apply (handleSingUp_missing_field (collab true) (at_clock 100)
           (mkRequest (Some "dave") (Some "dave@example.org")
                      (Some EmptyString) ∅) (database ∅)).
  right. right. vm_compute. reflexivity.
Defined.

(** A login without a password. *)
Lemma handleLogin_missing_field_witness :
  let req := mkRequest None (Some "alice@example.org") None ∅ in
  let out := serve (handleLogin (collab true) (at_clock 5) req)
                   (database ∅) in
  out.2 = Normal tt /\
  db out.1 = database ∅ /\
  trace out.1 =
    [ResSend httpStatus.BAD_REQUEST
       (JsonMessage "Email and password are required!")].
Proof.
  apply (handleLogin_missing_field (collab true) (at_clock 5)
           (mkRequest None (Some "alice@example.org") None ∅) (database ∅)).
  right. vm_compute. reflexivity.
Defined.

(** Alice mistypes her password; somebody tries an email nobody has. *)
Lemma handleLogin_rejects_alike_witness :
  let sessions : gmap string UserId := {[ issueRefreshToken 1 0 := 1 ]} in
  let wrong := serve (handleLogin (collab true) (at_clock 5)
                        (mkRequest None (Some "alice@example.org")
                                   (Some "pw-alicf") ∅))
                     (database sessions) in
  let unknown := serve (handleLogin (collab true) (at_clock 5)
                          (mkRequest None (Some "eve@example.org")
                                     (Some "pw-eve") ∅))
                       (database sessions) in
  delivered (trace wrong.1) = delivered (trace unknown.1) /\
  db wrong.1 = database sessions /\
  db unknown.1 = database sessions.
Proof.
  intros sessions wrong unknown.
  destruct (handleLogin_rejects_alike (collab true) (at_clock 5)
              (mkRequest None (Some "alice@example.org") (Some "pw-alicf") ∅)
              (database sessions) "alice@example.org" "pw-alicf")
    as (H1 & H2 & _);
    [vm_compute; reflexivity ..
    | right; exists alice; split; vm_compute; reflexivity |].
  destruct (handleLogin_rejects_alike (collab true) (at_clock 5)
              (mkRequest None (Some "eve@example.org") (Some "pw-eve") ∅)
              (database sessions) "eve@example.org" "pw-eve")
    as (H3 & H4 & _);
    [vm_compute; reflexivity .. | left; vm_compute; reflexivity |].
  fold wrong in H1, H2. fold unknown in H3, H4.
  split_and!; [congruence|done|done].
Defined.

(** Alice logs in at clock 5. *)
Lemma handleLogin_success_is_backed_witness :
  let out := serve (handleLogin (collab true) (at_clock 5)
                      (credentials alice None)) (database ∅) in
  exists u,
    user (database ∅) !! "alice@example.org" = Some u /\
    user_emailVerified u = true /\
    refreshToken (db out.1) !! issueRefreshToken (user_id u) 5
      = Some (user_id u).
Proof.
  intros out.
  destruct (handleLogin_success_is_backed (collab true) (at_clock 5)
              (credentials alice None) (database ∅) (issueAccessToken 1 5))
    as (email & pw & u & He & _ & Hu & Hver & _ & _ & _ & Hdb & _);
    [vm_compute; reflexivity|].
  vm_compute in He. injection He as <-. exists u. by split_and!.
Defined.

(** Alice, who has a session from another device, logs in without a
    cookie. *)
Lemma handleLogin_without_cookie_keeps_sessions_witness :
  let sessions : gmap string UserId := {[ issueRefreshToken 1 0 := 1 ]} in
  let out := serve (handleLogin (collab true) (at_clock 5)
                      (credentials alice None)) (database sessions) in
  refreshToken (db out.1) = <[ issueRefreshToken 1 5 := 1 ]> sessions /\
  sessions ⊆ refreshToken (db out.1).
Proof.
  intros sessions out.
  destruct (handleLogin_without_cookie_keeps_sessions (collab true)
              (at_clock 5) (credentials alice None) (database sessions)
              (user_email alice) (user_password alice) alice)
    as (_ & _ & _ & H1 & H2); [vm_compute; reflexivity ..|].
  by split.
Defined.

(** Alice has two sessions and logs in with the cookie of the first. *)
Lemma handleLogin_own_cookie_deletes_one_witness :
  let sessions : gmap string UserId :=
    {[ issueRefreshToken 1 0 := 1; issueRefreshToken 1 3 := 1;
       issueRefreshToken 2 0 := 2 ]} in
  let out := serve (handleLogin (collab true) (at_clock 5)
                      (credentials alice (Some (issueRefreshToken 1 0))))
                   (database sessions) in
  refreshToken (db out.1) =
    {[ issueRefreshToken 1 3 := 1; issueRefreshToken 1 5 := 1;
       issueRefreshToken 2 0 := 2 ]}.
Proof.
  intros sessions out.
  destruct (handleLogin_own_cookie_deletes_one (collab true) (at_clock 5)
              (credentials alice (Some (issueRefreshToken 1 0)))
              (database sessions) (user_email alice) (user_password alice)
              alice (issueRefreshToken 1 0))
    as (_ & _ & _ & H & _); [vm_compute; reflexivity ..|].
  fold out in H. rewrite H. vm_compute. reflexivity.
Defined.

(** Alice has sessions minted at clock 0 and at clock 5 and logs in at
    clock 5 with the cookie of the first: the codec mints the second again. *)
Lemma handleLogin_insert_conflict_witness :
  let sessions : gmap string UserId :=
    {[ issueRefreshToken 1 0 := 1; issueRefreshToken 1 5 := 1 ]} in
  let out := serve (handleLogin (collab true) (at_clock 5)
                      (credentials alice (Some (issueRefreshToken 1 0))))
                   (database sessions) in
  sends (trace out.1) =
    [ResSend httpStatus.INTERNAL_SERVER_ERROR StatusText] /\
  cookieSet "jid" (trace out.1) = [] /\
  refreshToken (db out.1) = delete (issueRefreshToken 1 0) sessions.
Proof.
  intros sessions out.
  destruct (handleLogin_insert_conflict (collab true) (at_clock 5)
              (credentials alice (Some (issueRefreshToken 1 0)))
              (database sessions) (user_email alice) (user_password alice)
              alice (issueRefreshToken 1 0) 1)
    as (_ & H1 & H2 & _ & H3); [vm_compute; reflexivity ..|].
  by split_and!.
Defined.

(** A refresh with an empty cookie. *)
Lemma handleRefresh_without_token_witness :
  let out := serve (handleRefresh (collab true) (at_clock 5)
                      (withCookie EmptyString)) (database ∅) in
  out.2 = Normal tt /\
  db out.1 = database ∅ /\
  trace out.1 = [ResSend httpStatus.UNAUTHORIZED StatusText].
Proof.
  apply (handleRefresh_without_token (collab true) (at_clock 5)
           (withCookie EmptyString) (database ∅)).
  vm_compute. reflexivity.
Defined.

(** Alice refreshes one of her two sessions; Bob has a session too. *)
Lemma handleRefresh_rotation_replaces_one_witness :
  let sessions : gmap string UserId :=
    {[ issueRefreshToken 1 0 := 1; issueRefreshToken 1 3 := 1;
       issueRefreshToken 2 0 := 2 ]} in
  let out := serve (handleRefresh (collab true) (at_clock 9)
                      (withCookie (issueRefreshToken 1 0)))
                   (database sessions) in
  refreshToken (db out.1) =
    {[ issueRefreshToken 1 9 := 1; issueRefreshToken 1 3 := 1;
       issueRefreshToken 2 0 := 2 ]} /\
  size (refreshToken (db out.1)) = size sessions.
Proof.
  intros sessions out.
  destruct (handleRefresh_rotation_replaces_one (collab true) (at_clock 9)
              (withCookie (issueRefreshToken 1 0)) (database sessions)
              (issueRefreshToken 1 0) 1)
    as (_ & _ & H1 & _ & H2); [vm_compute; reflexivity ..|].
  fold out in H1, H2. split; [|exact H2]. rewrite H1. vm_compute.
  reflexivity.
Defined.

(** A token of Alice that is no longer in the store is replayed. *)
Lemma handleRefresh_reuse_wipes_subject_only_witness :
  let sessions : gmap string UserId :=
    {[ issueRefreshToken 1 3 := 1; issueRefreshToken 2 0 := 2 ]} in
  let out := serve (handleRefresh (collab true) (at_clock 9)
                      (withCookie (issueRefreshToken 1 0)))
                   (database sessions) in
  refreshToken (db out.1) !! issueRefreshToken 1 3 <> Some 1 /\
  refreshToken (db out.1) !! issueRefreshToken 2 0 = Some 2.
Proof.
  intros sessions out.
  destruct (handleRefresh_reuse_wipes_subject_only (collab true) (at_clock 9)
              (withCookie (issueRefreshToken 1 0)) (database sessions)
              (issueRefreshToken 1 0) 1)
    as (_ & _ & H1 & H2); [vm_compute; reflexivity ..|].
  split; [apply H1|]. apply H2; [lia|]. vm_compute. reflexivity.
Defined.

(** Alice refreshes at clock 10, Bob logs in at clock 20. *)
Lemma run_sessions_provenance_witness :
  let d0 := database {[ issueRefreshToken 1 0 := 1 ]} in
  let js := [(Refresh, at_clock 10, withCookie (issueRefreshToken 1 0));
             (Login, at_clock 20, credentials bob None)] in
  refreshToken d0 !! issueRefreshToken 2 20 = Some 2 \/
  mintedIn (collab true) js (issueRefreshToken 2 20) 2.
Proof.
  intros d0 js.
  apply (run_sessions_provenance (collab true) d0 js (issueRefreshToken 2 20) 2).
  vm_compute. reflexivity.
Defined.

Lemma owner_check_never_rejects_witness :
  let js := [(Login, at_clock 5, credentials alice None);
             (Login, at_clock 6, credentials bob None)] in
  let out := serve (handleRefresh (collab true) (at_clock 9)
                      (withCookie (issueRefreshToken 1 5)))
                   (run (collab true) (database ∅) js) in
  delivered (trace out.1) =
    Some (httpStatus.OK, JsonAccessToken (issueAccessToken 1 9)).
Proof.
  intros js out.
  destruct (owner_check_never_rejects (collab true) (database ∅) js
              (at_clock 9) (withCookie (issueRefreshToken 1 5))
              (issueRefreshToken 1 5) 1 1) as [_ H].
  - apply collab_names_subject.
  - intros t o c u Ht. vm_compute in Ht. discriminate.
  - vm_compute. reflexivity.
  - vm_compute. reflexivity.
  - vm_compute. reflexivity.
  - exact H.
Defined.

Lemma sessions_never_write_users_witness :
  let out := serve (handler (collab true) Login (at_clock 5)
                      (credentials alice None)) (database ∅) in
  user (db out.1) = users /\ emailVerificationToken (db out.1) = [].
Proof.
  apply (sessions_never_write_users (collab true) Login (at_clock 5)
           (credentials alice None) (database ∅)).
  discriminate.
Defined.

(** Alice logs in at clock 5 and logs out. *)
Lemma login_then_logout_restores_witness :
  let sessions : gmap string UserId := {[ issueRefreshToken 2 0 := 2 ]} in
  let login := serve (handleLogin (collab true) (at_clock 5)
                        (credentials alice None)) (database sessions) in
  let logout := serve (handleLogout (collab true)
                         (withCookie (issueRefreshToken 1 5)))
                      (db login.1) in
  refreshToken (db login.1) !! issueRefreshToken 1 5 = Some 1 /\
  delivered (trace logout.1) = Some (httpStatus.NO_CONTENT, StatusText) /\
  db logout.1 = database sessions.
Proof.
  intros sessions.
  apply (login_then_logout_restores (collab true) (at_clock 5)
           (credentials alice None) (database sessions)
           (user_email alice) (user_password alice) alice
           (withCookie (issueRefreshToken 1 5)));
    vm_compute; reflexivity.
Defined.

(** Alice logs in at clock 5 and refreshes at clock 9. *)
Lemma login_then_refresh_rotates_witness :
  let sessions : gmap string UserId := {[ issueRefreshToken 2 0 := 2 ]} in
  let login := serve (handleLogin (collab true) (at_clock 5)
                        (credentials alice None)) (database sessions) in
  let refresh := serve (handleRefresh (collab true) (at_clock 9)
                          (withCookie (issueRefreshToken 1 5)))
                       (db login.1) in
  delivered (trace refresh.1) =
    Some (httpStatus.OK, JsonAccessToken (issueAccessToken 1 9)) /\
  cookieSet "jid" (trace refresh.1) = [issueRefreshToken 1 9] /\
  refreshToken (db refresh.1) = <[ issueRefreshToken 1 9 := 1 ]> sessions.
Proof.
  intros sessions.
  apply (login_then_refresh_rotates (collab true) (at_clock 5)
           (credentials alice None) (database sessions)
           (user_email alice) (user_password alice) alice
           (at_clock 9) (withCookie (issueRefreshToken 1 5)));
    vm_compute; reflexivity.
Defined.

End MoreExamples.

(** ** Login to an account that is not verified *)


Section UnverifiedExamples.
Import TokenCodec Scenario.



End UnverifiedExamples.
